(** * gowarcraft3, package network: error classification and connection handles

    A shallow embedding of [network/error.go] and of the connection
    wrappers ([W3GSPacketConn], [W3GSConn], [BNCSConn], [CAPIConn]) together
    with the properties of the transport layer that are established about
    them. *)

From Stdlib Require Import Reals Lra.
From Stdlib Require Import ZArith List String Bool Lia.
Import ListNotations.
Local Open Scope string_scope.
Local Open Scope Z_scope.

(** ** Go error values *)

(** The five pointer types that [UnnestError] unwraps. *)
Inductive wrapper : Type :=
| TAsyncError      (* *network.AsyncError *)
| TOpError         (* *net.OpError *)
| TSyscallError    (* *os.SyscallError *)
| TPathError       (* *os.PathError *)
| TLinkError.      (* *os.LinkError *)

(** Package-level error variables; Go compares them by identity. *)
Inductive sentinel : Type :=
| io_EOF
| websocket_ErrCloseSent
| w3gs_ErrInvalidPacketSize
| w3gs_ErrInvalidChecksum
| w3gs_ErrUnexpectedConst
| w3gs_ErrBufferTooSmall
| bncs_ErrInvalidPacketSize
| bncs_ErrInvalidChecksum
| bncs_ErrUnexpectedConst
| bncs_ErrBufferTooSmall.

(** A value of the interface type [error].  [nil] is the nil interface; the
    [..Ptr] constructors are non-nil pointers to the named struct with the
    fields the code reads; [NilPtr k] is a nil pointer of wrapper type [k]
    stored in the interface (the interface itself is then not nil);
    [Other msg tmp tmo] is a value of any other dynamic type, given by its
    method set: [Error()] returns [msg], and [Temporary()] / [Timeout()]
    exist when the option is [Some] and then return its content. *)
Inductive error : Type :=
| nil
| AsyncErrorPtr (Src : string) (Err : error)
| OpErrorPtr (Op Net : string) (Err : error)
| SyscallErrorPtr (Syscall : string) (Err : error)
| PathErrorPtr (Op Path : string) (Err : error)
| LinkErrorPtr (Op Old New : string) (Err : error)
| NilPtr (k : wrapper)
| Errno (n : Z)                                   (* syscall.Errno *)
| Sentinel (v : sentinel)
| CloseErrorPtr (Code : Z) (Text : string)        (* *websocket.CloseError *)
| JSONSyntaxErrorPtr (msg : string) (Offset : Z)  (* *json.SyntaxError *)
| JSONUnmarshalTypeErrorPtr (Value Field : string) (Offset : Z)
| Other (msg : string) (temporary timeout : option bool).

Definition is_nil (err : error) : bool :=
  match err with nil => true | _ => false end.

(** Dynamic type of [err] is one of the five wrapper pointer types. *)
Definition wrapper_of (err : error) : option wrapper :=
  match err with
  | AsyncErrorPtr _ _ => Some TAsyncError
  | OpErrorPtr _ _ _ => Some TOpError
  | SyscallErrorPtr _ _ => Some TSyscallError
  | PathErrorPtr _ _ _ => Some TPathError
  | LinkErrorPtr _ _ _ _ => Some TLinkError
  | NilPtr k => Some k
  | _ => None
  end.

Definition is_wrapper (err : error) : bool :=
  match wrapper_of err with Some _ => true | None => false end.

Definition sentinel_eqb (a b : sentinel) : bool :=
  match a, b with
  | io_EOF, io_EOF
  | websocket_ErrCloseSent, websocket_ErrCloseSent
  | w3gs_ErrInvalidPacketSize, w3gs_ErrInvalidPacketSize
  | w3gs_ErrInvalidChecksum, w3gs_ErrInvalidChecksum
  | w3gs_ErrUnexpectedConst, w3gs_ErrUnexpectedConst
  | w3gs_ErrBufferTooSmall, w3gs_ErrBufferTooSmall
  | bncs_ErrInvalidPacketSize, bncs_ErrInvalidPacketSize
  | bncs_ErrInvalidChecksum, bncs_ErrInvalidChecksum
  | bncs_ErrUnexpectedConst, bncs_ErrUnexpectedConst
  | bncs_ErrBufferTooSmall, bncs_ErrBufferTooSmall => true
  | _, _ => false
  end.

(** [err == v] for a package-level error variable [v]. *)
Definition is_sentinel (err : error) (v : sentinel) : bool :=
  match err with Sentinel u => sentinel_eqb u v | _ => false end.

(** ** Results of Go calls that may panic *)

Inductive result (A : Type) : Type :=
| Ok (a : A)
| Panics.
Arguments Ok {A} a.
Arguments Panics {A}.

Definition rbind {A B} (r : result A) (f : A -> result B) : result B :=
  match r with Ok a => f a | Panics => Panics end.

(** ** Methods of the error types that live outside the package

    [Error()], [Temporary()] and [Timeout()] of the standard library's error
    types, and the platform's [syscall] constants.  A method that the dynamic
    type does not have is [None]. *)
Record GoLib : Type := {
  std_Error : error -> string;
  std_Temporary : error -> option bool;
  std_Timeout : error -> option bool;
  ECONNREFUSED : Z;
  ECONNABORTED : Z;
  ECONNRESET : Z;
  ENOTCONN : Z;
  ESHUTDOWN : Z;
  EPIPE : Z
}.

(** gorilla/websocket close codes used by the classifier. *)
Definition websocket_CloseMandatoryExtension : Z := 1010.
Definition websocket_CloseTLSHandshake : Z := 1015.

(** websocket.IsCloseError *)
Definition websocket_IsCloseError (err : error) (codes : list Z) : bool :=
  match err with
  | CloseErrorPtr code _ => existsb (Z.eqb code) codes
  | _ => false
  end.

(** websocket.IsUnexpectedCloseError *)
Definition websocket_IsUnexpectedCloseError (err : error) (expectedCodes : list Z) : bool :=
  match err with
  | CloseErrorPtr code _ => negb (existsb (Z.eqb code) expectedCodes)
  | _ => false
  end.

Definition WSAECONNREFUSED : Z := 10061.
Definition WSAECONNABORTED : Z := 10053.
Definition WSAECONNRESET : Z := 10054.
Definition WSAENOTCONN : Z := 10057.
Definition WSAESHUTDOWN : Z := 10058.

(** UnnestError retrieves the innermost error.  Reading [e.Err] through a
    nil pointer panics. *)
Fixpoint UnnestError (err : error) : result error :=
  match err with
  | AsyncErrorPtr _ e => UnnestError e
  | OpErrorPtr _ _ e => UnnestError e
  | SyscallErrorPtr _ e => UnnestError e
  | PathErrorPtr _ _ e => UnnestError e
  | LinkErrorPtr _ _ _ e => UnnestError e
  | NilPtr _ => Panics
  | _ => Ok err
  end.

Section Classifier.

Context (lib : GoLib).

(** The [Timeout()] method of a value whose dynamic type is not
    [*AsyncError]: [None] when the type assertion [err.(timeout)] fails. *)
Definition foreign_Timeout (err : error) : option bool :=
  match err with
  | nil => None
  | Other _ _ tmo => tmo
  | Sentinel _ | CloseErrorPtr _ _
  | JSONSyntaxErrorPtr _ _ | JSONUnmarshalTypeErrorPtr _ _ _ => None
  | _ => std_Timeout lib err
  end.

Definition foreign_Temporary (err : error) : option bool :=
  match err with
  | nil => None
  | Other _ tmp _ => tmp
  | Sentinel _ | CloseErrorPtr _ _
  | JSONSyntaxErrorPtr _ _ | JSONUnmarshalTypeErrorPtr _ _ _ => None
  | _ => std_Temporary lib err
  end.

(** IsTimeoutError checks is error is timeout.  For a [*AsyncError] the
    assertion [err.(timeout)] succeeds and [t.Timeout()] is
    [IsTimeoutError(e.Err)]. *)
Fixpoint IsTimeoutError (err : error) : result bool :=
  match err with
  | nil => Ok false
  | AsyncErrorPtr _ e => IsTimeoutError e
  | NilPtr TAsyncError => Panics
  | _ =>
      match foreign_Timeout err with
      | Some b => Ok b
      | None =>
          rbind (UnnestError err) (fun u =>
            match foreign_Timeout u with
            | Some b => Ok b
            | None => Ok false
            end)
      end
  end.

(** IsTemporaryError checks is error is temporary. *)
Fixpoint IsTemporaryError (err : error) : result bool :=
  match err with
  | nil => Ok false
  | AsyncErrorPtr _ e => IsTemporaryError e
  | NilPtr TAsyncError => Panics
  | _ =>
      match foreign_Temporary err with
      | Some b => Ok b
      | None =>
          rbind (UnnestError err) (fun u =>
            match foreign_Temporary u with
            | Some b => Ok b
            | None => IsTimeoutError err
            end)
      end
  end.

(** The method sets as the type assertions of the source see them: the
    result of [err.(timeout)] followed by [t.Timeout()], for every dynamic
    type, [*AsyncError] included. *)
Definition method_Timeout (err : error) : option (result bool) :=
  match err with
  | AsyncErrorPtr _ e => Some (IsTimeoutError e)
  | NilPtr TAsyncError => Some Panics
  | _ => option_map Ok (foreign_Timeout err)
  end.

Definition method_Temporary (err : error) : option (result bool) :=
  match err with
  | AsyncErrorPtr _ e => Some (IsTemporaryError e)
  | NilPtr TAsyncError => Some Panics
  | _ => option_map Ok (foreign_Temporary err)
  end.

(** Method [Error] of [AsyncError], and [Error()] of every other dynamic
    type; there is no method to call on the nil interface. *)
Fixpoint Error (err : error) : result string :=
  match err with
  | nil => Panics
  | AsyncErrorPtr Src e =>
      match e with
      | nil => Ok (Src ++ ":NIL")
      | _ => rbind (Error e) (fun s => Ok (Src ++ ":" ++ s))
      end
  | NilPtr TAsyncError => Panics
  | Other msg _ _ => Ok msg
  | _ => Ok (std_Error lib err)
  end.

(** IsUseClosedNetworkError checks if net.error is poll.ErrNetClosed *)
Definition IsUseClosedNetworkError (err : error) : result bool :=
  if is_nil err then Ok false
  else rbind (Error err) (fun s => Ok (String.eqb s "use of closed network connection")).

(** IsSysCallError checks if error is one of syscall.Errno *)
Definition IsSysCallError (err : error) (errno : list Z) : result bool :=
  rbind (UnnestError err) (fun err =>
    if is_nil err then Ok false
    else match err with
         | Errno n => Ok (existsb (fun e => Z.eqb e n) errno)
         | _ => Ok false
         end).

(** IsConnRefusedError checks if err indicates a refused connection *)
Definition IsConnRefusedError (err : error) : result bool :=
  rbind (UnnestError err) (fun err =>
    rbind (IsSysCallError err [ECONNREFUSED lib; WSAECONNREFUSED]) (fun b =>
      if b then Ok true
      else Ok (websocket_IsCloseError err
                 [websocket_CloseTLSHandshake; websocket_CloseMandatoryExtension]))).

Definition closed_errnos : list Z :=
  [ECONNABORTED lib; ECONNRESET lib; ENOTCONN lib; ESHUTDOWN lib; EPIPE lib;
   WSAECONNABORTED; WSAECONNRESET; WSAENOTCONN; WSAESHUTDOWN].

(** IsConnClosedError checks if err indicates a closed connection *)
Definition IsConnClosedError (err : error) : result bool :=
  rbind (UnnestError err) (fun err =>
    if is_sentinel err io_EOF then Ok true
    else
      rbind (IsUseClosedNetworkError err) (fun b =>
        if b then Ok true
        else
          rbind (IsSysCallError err closed_errnos) (fun b =>
            if b then Ok true
            else Ok (is_sentinel err websocket_ErrCloseSent
                     || websocket_IsUnexpectedCloseError err [])))).

End Classifier.

(** ** The documented reading of the classifier, for comparison *)



(** [err] has a [Temporary()] method and it answers true. *)
Definition self_reports_temporary (lib : GoLib) (err : error) : bool :=
  match method_Temporary lib err with
  | Some (Ok true) => true
  | _ => false
  end.

(** "True if the error or its unnested innermost cause self-reports as
    temporary, and otherwise the timeout classification." *)
Definition IsTemporaryError_as_documented (lib : GoLib) (err : error) : result bool :=
  if self_reports_temporary lib err
     || match UnnestError err with
        | Ok u => self_reports_temporary lib u
        | Panics => false
        end
  then Ok true
  else IsTimeoutError lib err.

(** ** The standard library's error methods on linux/amd64

    Used to run the classifier on concrete values.  Messages are given for
    the codes that the examples use. *)
Module Linux.

Definition ENOENT : Z := 2.
Definition EINTR : Z := 4.
Definition EAGAIN : Z := 11.
Definition EWOULDBLOCK : Z := 11.
Definition ENFILE : Z := 23.
Definition EMFILE : Z := 24.
Definition ETIMEDOUT : Z := 110.

(** syscall.Errno.Timeout *)
Definition Errno_Timeout (n : Z) : bool :=
  (n =? EAGAIN) || (n =? EWOULDBLOCK) || (n =? ETIMEDOUT).

(** syscall.Errno.Temporary *)
Definition Errno_Temporary (n : Z) : bool :=
  (n =? EINTR) || (n =? EMFILE) || (n =? ENFILE) || Errno_Timeout n.

(** syscall.Errno.Error *)
Definition Errno_Error (n : Z) : string :=
  if n =? 2 then "no such file or directory"
  else if n =? 4 then "interrupted system call"
  else if n =? 11 then "resource temporarily unavailable"
  else if n =? 32 then "broken pipe"
  else if n =? 103 then "software caused connection abort"
  else if n =? 104 then "connection reset by peer"
  else if n =? 107 then "transport endpoint is not connected"
  else if n =? 108 then "cannot send after transport endpoint shutdown"
  else if n =? 110 then "connection timed out"
  else if n =? 111 then "connection refused"
  else "errno".

Definition answered (o : option bool) : bool :=
  match o with Some b => b | None => false end.

(** The cause below all wrappers, where every pointer on the way is set. *)
Fixpoint innermost (err : error) : error :=
  match err with
  | AsyncErrorPtr _ e | OpErrorPtr _ _ e | SyscallErrorPtr _ e
  | PathErrorPtr _ _ e | LinkErrorPtr _ _ _ e => innermost e
  | _ => err
  end.

Definition leaf_Timeout (err : error) : option bool :=
  match err with
  | Errno n => Some (Errno_Timeout n)
  | Other _ _ tmo => tmo
  | _ => None
  end.

Definition leaf_Temporary (err : error) : option bool :=
  match err with
  | Errno n => Some (Errno_Temporary n)
  | Other _ tmp _ => tmp
  | _ => None
  end.

(** [err.(timeout)] and then [Timeout()], through net.OpError.Timeout,
    os.SyscallError.Timeout and os.PathError.Timeout. *)
Fixpoint dyn_Timeout (err : error) : option bool :=
  match err with
  | Errno n => Some (Errno_Timeout n)
  | Other _ _ tmo => tmo
  | OpErrorPtr _ _ e =>
      Some match e with
           | SyscallErrorPtr _ ne => answered (dyn_Timeout ne)
           | _ => answered (dyn_Timeout e)
           end
  | SyscallErrorPtr _ e => Some (answered (dyn_Timeout e))
  | PathErrorPtr _ _ e => Some (answered (dyn_Timeout e))
  | AsyncErrorPtr _ e =>
      Some match dyn_Timeout e with
           | Some b => b
           | None => answered (leaf_Timeout (innermost e))
           end
  | _ => None
  end.

(** net.isConnError *)
Definition isConnError (err : error) : bool :=
  match err with
  | Errno n => (n =? 104) || (n =? 103)
  | _ => false
  end.

(** [err.(temporary)] and then [Temporary()], through net.OpError.Temporary;
    os.SyscallError, os.PathError and os.LinkError have no such method. *)
Fixpoint dyn_Temporary (err : error) : option bool :=
  match err with
  | Errno n => Some (Errno_Temporary n)
  | Other _ tmp _ => tmp
  | OpErrorPtr Op _ e =>
      Some (if String.eqb Op "accept" && isConnError e then true
            else match e with
                 | SyscallErrorPtr _ ne => answered (dyn_Temporary ne)
                 | _ => answered (dyn_Temporary e)
                 end)
  | AsyncErrorPtr _ e =>
      Some match dyn_Temporary e with
           | Some b => b
           | None =>
               match leaf_Temporary (innermost e) with
               | Some b => b
               | None => answered (dyn_Timeout (AsyncErrorPtr "" e))
               end
           end
  | _ => None
  end.

Definition sentinel_Error (v : sentinel) : string :=
  match v with
  | io_EOF => "EOF"
  | websocket_ErrCloseSent => "websocket: close sent"
  | w3gs_ErrInvalidPacketSize => "w3gs: Invalid packet size"
  | w3gs_ErrInvalidChecksum => "w3gs: Checksum invalid"
  | w3gs_ErrUnexpectedConst => "w3gs: Unexpected constant value"
  | w3gs_ErrBufferTooSmall => "w3gs: Buffer too small"
  | bncs_ErrInvalidPacketSize => "bncs: Invalid packet size"
  | bncs_ErrInvalidChecksum => "bncs: Checksum invalid"
  | bncs_ErrUnexpectedConst => "bncs: Unexpected constant value"
  | bncs_ErrBufferTooSmall => "bncs: Buffer too small"
  end.

Fixpoint dyn_Error (err : error) : string :=
  match err with
  | nil => "<nil>"
  | AsyncErrorPtr Src e => Src ++ ":" ++ dyn_Error e
  | OpErrorPtr Op Net e => Op ++ " " ++ Net ++ ": " ++ dyn_Error e
  | SyscallErrorPtr Syscall e => Syscall ++ ": " ++ dyn_Error e
  | PathErrorPtr Op Path e => Op ++ " " ++ Path ++ ": " ++ dyn_Error e
  | LinkErrorPtr Op Old New e => Op ++ " " ++ Old ++ " " ++ New ++ ": " ++ dyn_Error e
  | NilPtr _ => "<nil>"
  | Errno n => Errno_Error n
  | Sentinel v => sentinel_Error v
  | CloseErrorPtr _ Text => "websocket: close " ++ Text
  | JSONSyntaxErrorPtr msg _ => msg
  | JSONUnmarshalTypeErrorPtr Value _ _ => "json: cannot unmarshal " ++ Value
  | Other msg _ _ => msg
  end.

Definition lib : GoLib := {|
  std_Error := dyn_Error;
  std_Temporary := dyn_Temporary;
  std_Timeout := dyn_Timeout;
  ECONNREFUSED := 111;
  ECONNABORTED := 103;
  ECONNRESET := 104;
  ENOTCONN := 107;
  ESHUTDOWN := 108;
  EPIPE := 32
|}.

(** os.Open of a missing file *)
Definition file_not_found : error :=
  PathErrorPtr "open" "war3.exe" (Errno ENOENT).

(** A read on a socket that another goroutine closed *)
Definition use_of_closed : error :=
  OpErrorPtr "read" "tcp" (Other "use of closed network connection" None None).

(** A value in the shape of crypto/tls's permanent error around a timeout:
    it has both methods, [Temporary()] is false and [Timeout()] is true. *)
Definition permanent_timeout : error :=
  Other "tls: write deadline exceeded" (Some false) (Some true).

End Linux.

(** ** The world outside the connection handles

    Transports, codecs, the clock, the floating-point routines and the event
    emitter are collaborators of the package.  Their types are collected in
    [Types], their operations in [Env]; every operation acts on the external
    state [Ext].  The locks of a handle ([cmut], [smut], [lmut]) carry no
    state here: the embedding is sequential and every function releases on
    each of its paths what it acquired. *)

Definition bytes : Type := list Byte.byte.

(** net.Addr values; the nil address is [None]. *)
Inductive net_Addr : Type :=
| UDPAddr (IP : list Z) (Port : Z)
| OtherAddr (network address : string).

(** net.IPv4bcast *)
Definition net_IPv4bcast : list Z := [255; 255; 255; 255].

(** W3GSBroadcastAddr is used to broadcast W3GS packets to LAN *)
Definition W3GSBroadcastAddr : net_Addr := UDPAddr net_IPv4bcast 6112.

(** websocket.TextMessage *)
Definition websocket_TextMessage : Z := 1.

(** time.Millisecond, in nanoseconds *)
Definition time_Millisecond : Z := 1000000.

(** Arithmetic of [int64], which is what [time.Duration] is. *)
Definition wrap64 (z : Z) : Z := (z + 2 ^ 63) mod 2 ^ 64 - 2 ^ 63.

Definition Duration_mul (a b : Z) : Z := wrap64 (a * b).

(** time.Time as a count of nanoseconds; [Sub] saturates as in package time. *)
Definition Time_Add (t d : Z) : Z := t + d.
Definition Time_Before (t u : Z) : bool := t <? u.
Definition Time_Sub (t u : Z) : Z :=
  Z.max (- 2 ^ 63) (Z.min (2 ^ 63 - 1) (t - u)).

Record Types : Type := {
  Ext : Type;
  net_PacketConn : Type;                    (* non-nil net.PacketConn values *)
  net_Conn : Type;                          (* non-nil net.Conn values *)
  websocket_Conn : Type;                        (* non-nil *websocket.Conn values *)
  WSReader : Type;                      (* io.Reader of one message *)
  WSWriter : Type;                      (* io.WriteCloser of one message *)
  w3gs_Packet : Type;                   (* non-nil w3gs.Packet values *)
  w3gs_DeserializationBuffer : Type;
  bncs_Packet : Type;
  bncs_DeserializationBuffer : Type;
  capi_Packet : Type;                   (* capi.Packet structs *)
  capi_Payload : Type;                  (* what the Payload field holds *)
  float64 : Type
}.

Section World.

Context {T : Types}.

(** An argument of [Emitter.Fire]. *)
Inductive EventArg : Type :=
| EvRunStart                                  (* RunStart{} *)
| EvRunStop                                   (* RunStop{} *)
| EvError (e : error)
| EvW3GS (pkt : option (w3gs_Packet T))
| EvAddr (addr : option net_Addr)
| EvBNCS (pkt : option (bncs_Packet T))
| EvCAPI (pkt : option (capi_Packet T))
| EvPayload (x : capi_Payload T).

(** What a reader handed to a W3GS deserializer reads from. *)
Inductive io_Reader : Type :=
| ReaderConn (k : net_Conn T)
| ReaderBuffer (b : bytes).                   (* &protocol.Buffer{Bytes: b} *)

Record Env : Type := {
  (* package time *)
  time_Now : Ext T -> Z * Ext T;
  time_Sleep : Z -> Ext T -> Ext T;
  (* package math and conversions *)
  float64_of_int : Z -> float64 T;
  float64_1_5 : float64 T;
  float64_div : float64 T -> float64 T -> float64 T;
  math_Log : float64 T -> float64 T;
  math_Pow : float64 T -> float64 T -> float64 T;
  int64_of_float64 : float64 T -> Z;
  (* net.PacketConn *)
  PacketConn_Close : net_PacketConn T -> Ext T -> error * Ext T;
  PacketConn_SetReadDeadline : net_PacketConn T -> Z -> Ext T -> error * Ext T;
  PacketConn_ReadFrom :
    net_PacketConn T -> bytes -> Ext T -> (Z * option net_Addr * error * bytes) * Ext T;
  PacketConn_WriteTo :
    net_PacketConn T -> bytes -> option net_Addr -> Ext T -> (Z * error) * Ext T;
  (* net.Conn *)
  Conn_Close : net_Conn T -> Ext T -> error * Ext T;
  Conn_SetReadDeadline : net_Conn T -> Z -> Ext T -> error * Ext T;
  (* websocket.Conn *)
  WSConn_Close : websocket_Conn T -> Ext T -> error * Ext T;
  WSConn_SetReadDeadline : websocket_Conn T -> Z -> Ext T -> error * Ext T;
  WSConn_NextReader : websocket_Conn T -> Ext T -> (WSReader T * error) * Ext T;
  WSConn_NextWriter : websocket_Conn T -> Z -> Ext T -> (WSWriter T * error) * Ext T;
  WSWriter_Close : WSWriter T -> Ext T -> Ext T;
  io_Copy_Discard : WSReader T -> Ext T -> Ext T;
  (* package w3gs *)
  w3gs_Packet_Serialize : w3gs_Packet T -> bytes -> error * bytes;
  w3gs_SerializePacketWithBuffer :
    net_Conn T -> bytes -> option (w3gs_Packet T) -> Ext T -> (Z * error * bytes) * Ext T;
  w3gs_DeserializePacketWithBuffer :
    io_Reader -> w3gs_DeserializationBuffer T -> Ext T ->
    (option (w3gs_Packet T) * Z * error * w3gs_DeserializationBuffer T) * Ext T;
  (* package bncs *)
  bncs_SerializePacketWithBuffer :
    net_Conn T -> bytes -> option (bncs_Packet T) -> Ext T -> (Z * error * bytes) * Ext T;
  bncs_DeserializeClientPacketWithBuffer :
    net_Conn T -> bncs_DeserializationBuffer T -> Ext T ->
    (option (bncs_Packet T) * Z * error * bncs_DeserializationBuffer T) * Ext T;
  bncs_DeserializeServerPacketWithBuffer :
    net_Conn T -> bncs_DeserializationBuffer T -> Ext T ->
    (option (bncs_Packet T) * Z * error * bncs_DeserializationBuffer T) * Ext T;
  (* package capi *)
  capi_SerializePacket : WSWriter T -> option (capi_Packet T) -> Ext T -> error * Ext T;
  capi_DeserializePacket : WSReader T -> Ext T -> (option (capi_Packet T) * error) * Ext T;
  capi_Packet_Payload : capi_Packet T -> capi_Payload T;
  (* Emitter *)
  Emitter_Fire : list EventArg -> Ext T -> Ext T
}.

(** The external state together with the record of the firings made. *)
Record World : Type := {
  ext : Ext T;
  fired : list (list EventArg)
}.

(** A call returns a value and a new world, panics, or is still running when
    the fuel of its loop is used up. *)
Inductive outcome (A : Type) : Type :=
| Done (a : A) (w : World)
| Panic
| OutOfFuel.

Definition M (A : Type) : Type := World -> outcome A.

Definition ret {A} (a : A) : M A := fun w => Done A a w.

Definition bind {A B} (m : M A) (f : A -> M B) : M B :=
  fun w =>
    match m w with
    | Done _ a w' => f a w'
    | Panic _ => Panic B
    | OutOfFuel _ => OutOfFuel B
    end.

Definition panic {A} : M A := fun _ => Panic A.

Definition out_of_fuel {A} : M A := fun _ => OutOfFuel A.

(** A call into a collaborator. *)
Definition call {A} (f : Ext T -> A * Ext T) : M A :=
  fun w => let (a, x) := f (ext w) in Done A a {| ext := x; fired := fired w |}.

Definition call_ (f : Ext T -> Ext T) : M unit :=
  fun w => Done unit tt {| ext := f (ext w); fired := fired w |}.

(** The world after [f.Fire(args...)]. *)
Definition fire_w (env : Env) (args : list EventArg) (w : World) : World :=
  {| ext := Emitter_Fire env args (ext w); fired := fired w ++ [args] |}.

Definition Fire (env : Env) (args : list EventArg) : M unit :=
  fun w => Done unit tt (fire_w env args w).

End World.

Arguments Env T : clear implicits.
Arguments World T : clear implicits.
Arguments M T A : clear implicits.
Arguments Done {T A} a w.
Arguments Panic {T A}.
Arguments OutOfFuel {T A}.

Declare Scope go_scope.
Delimit Scope go_scope with go.
Notation "x <- m ;; k" := (bind m (fun x => k))
  (at level 61, m at next level, right associativity) : go_scope.
Notation "' pat <- m ;; k" := (bind m (fun x => match x with pat => k end))
  (at level 61, pat pattern, m at next level, right associativity) : go_scope.
Notation "m ;; k" := (bind m (fun _ => k))
  (at level 61, right associativity) : go_scope.
Local Open Scope go_scope.

(** The decode failures after which a W3GS stream is still usable:
    [case w3gs.ErrInvalidPacketSize, w3gs.ErrInvalidChecksum,
    w3gs.ErrUnexpectedConst, w3gs.ErrBufferTooSmall]. *)
Definition w3gs_recoverable (err : error) : bool :=
  is_sentinel err w3gs_ErrInvalidPacketSize
  || is_sentinel err w3gs_ErrInvalidChecksum
  || is_sentinel err w3gs_ErrUnexpectedConst
  || is_sentinel err w3gs_ErrBufferTooSmall.

(** [case bncs.ErrInvalidPacketSize, bncs.ErrInvalidChecksum,
    bncs.ErrUnexpectedConst, bncs.ErrBufferTooSmall]. *)
Definition bncs_recoverable (err : error) : bool :=
  is_sentinel err bncs_ErrInvalidPacketSize
  || is_sentinel err bncs_ErrInvalidChecksum
  || is_sentinel err bncs_ErrUnexpectedConst
  || is_sentinel err bncs_ErrBufferTooSmall.

(** [case *json.SyntaxError, *json.UnmarshalTypeError], a switch on the
    dynamic type. *)
Definition capi_recoverable (err : error) : bool :=
  match err with
  | JSONSyntaxErrorPtr _ _ | JSONUnmarshalTypeErrorPtr _ _ _ => true
  | _ => false
  end.

(** ** W3GSPacketConn manages a UDP connection that transfers W3GS packets *)
Module W3GSPacketConn.
Section Handle.

Context {T : Types} (env : Env T).

Record t : Type := {
  conn : option (net_PacketConn T);
  sbuf : bytes;
  bbuf : bytes;                         (* [2048]byte *)
  rbuf : w3gs_DeserializationBuffer T
}.

Definition set_conn (c : t) (k : option (net_PacketConn T)) : t :=
  {| conn := k; sbuf := sbuf c; bbuf := bbuf c; rbuf := rbuf c |}.
Definition set_sbuf (c : t) (b : bytes) : t :=
  {| conn := conn c; sbuf := b; bbuf := bbuf c; rbuf := rbuf c |}.
Definition set_bbuf (c : t) (b : bytes) : t :=
  {| conn := conn c; sbuf := sbuf c; bbuf := b; rbuf := rbuf c |}.
Definition set_rbuf (c : t) (b : w3gs_DeserializationBuffer T) : t :=
  {| conn := conn c; sbuf := sbuf c; bbuf := bbuf c; rbuf := b |}.

(** Conn returns the underlying net.PacketConn *)
Definition Conn (c : t) : M T (option (net_PacketConn T)) := ret (conn c).

(** Close closes the connection *)
Definition Close (c : t) : M T error :=
  match conn c with
  | Some k => call (PacketConn_Close env k)
  | None => ret nil
  end.

(** SetConn closes the old connection and starts using the new net.PacketConn *)
Definition SetConn (c : t) (k : option (net_PacketConn T)) : M T t :=
  Close c ;; ret (set_conn c k).

(** Send pkt to addr over net.PacketConn *)
Definition Send (c : t) (addr : option net_Addr) (pkt : option (w3gs_Packet T))
  : M T (Z * error * t) :=
  match conn c with
  | None => ret (0, Sentinel io_EOF, c)
  | Some k =>
      let c := set_sbuf c [] in                                (* Truncate *)
      match pkt with
      | None => panic                          (* method call on a nil interface *)
      | Some p =>
          let (e, b) := w3gs_Packet_Serialize env p (sbuf c) in
          let c := set_sbuf c b in
          if is_nil e then
            '(n, e) <- call (PacketConn_WriteTo env k (sbuf c) addr) ;;
            ret (n, e, c)
          else ret (0, e, c)
      end
  end.

(** Broadcast a packet over LAN *)
Definition Broadcast (c : t) (pkt : option (w3gs_Packet T)) : M T (Z * error * t) :=
  Send c (Some W3GSBroadcastAddr) pkt.

(** NextPacket waits for the next packet (with given timeout) and returns its
    deserialized representation *)
Definition NextPacket (c : t) (timeout : Z)
  : M T (option (w3gs_Packet T) * option net_Addr * error * t) :=
  match conn c with
  | None => ret (None, None, Sentinel io_EOF, c)
  | Some k =>
      err <- (if timeout =? 0 then ret nil
              else now <- call (time_Now env) ;;
                   call (PacketConn_SetReadDeadline env k (Time_Add now timeout))) ;;
      if negb (is_nil err) then ret (None, None, err, c)
      else
        '(size, addr, err, b) <- call (PacketConn_ReadFrom env k (bbuf c)) ;;
        let c := set_bbuf c b in
        if negb (is_nil err) then ret (None, None, err, c)
        else if (size <? 0) || (2048 <? size) then panic    (* c.bbuf[:size] *)
        else
          '(pkt, _, err, r) <-
            call (w3gs_DeserializePacketWithBuffer env
                    (ReaderBuffer (firstn (Z.to_nat size) (bbuf c))) (rbuf c)) ;;
          let c := set_rbuf c r in
          if negb (is_nil err) then ret (None, None, err, c)
          else ret (pkt, addr, err, c)
  end.

(** Run reads packets (with given max time between packets) from Conn and
    emits an event for each received packet.  [fuel] bounds the number of
    iterations of the [for] loop that are followed. *)
Fixpoint Run_loop (fuel : nat) (c : t) (timeout : Z) : M T (error * t) :=
  match fuel with
  | O => out_of_fuel
  | S fuel =>
      '(pkt, addr, err, c) <- NextPacket c timeout ;;
      if negb (is_nil err) then
        if w3gs_recoverable err then
          Fire env [EvError (AsyncErrorPtr "Run[NextPacket]" err)] ;;
          Run_loop fuel c timeout
        else
          Fire env [EvRunStop] ;;
          ret (err, c)
      else
        Fire env [EvW3GS pkt; EvAddr addr] ;;
        Run_loop fuel c timeout
  end.

Definition Run (fuel : nat) (c : t) (timeout : Z) : M T (error * t) :=
  Fire env [EvRunStart] ;;
  Run_loop fuel c timeout.

End Handle.
End W3GSPacketConn.

(** ** W3GSConn manages a TCP connection that transfers W3GS packets *)
Module W3GSConn.
Section Handle.

Context {T : Types} (env : Env T).

Record t : Type := {
  conn : option (net_Conn T);
  sbuf : bytes;
  rbuf : w3gs_DeserializationBuffer T
}.

Definition set_conn (c : t) (k : option (net_Conn T)) : t :=
  {| conn := k; sbuf := sbuf c; rbuf := rbuf c |}.
Definition set_sbuf (c : t) (b : bytes) : t :=
  {| conn := conn c; sbuf := b; rbuf := rbuf c |}.
Definition set_rbuf (c : t) (b : w3gs_DeserializationBuffer T) : t :=
  {| conn := conn c; sbuf := sbuf c; rbuf := b |}.

(** Conn returns the underlying net.Conn *)
Definition Conn (c : t) : M T (option (net_Conn T)) := ret (conn c).

(** Close closes the connection *)
Definition Close (c : t) : M T error :=
  match conn c with
  | Some k => call (Conn_Close env k)
  | None => ret nil
  end.

(** SetConn closes the old connection and starts using the new net.Conn *)
Definition SetConn (c : t) (k : option (net_Conn T)) : M T t :=
  Close c ;; ret (set_conn c k).

(** Send pkt to addr over net.Conn *)
Definition Send (c : t) (pkt : option (w3gs_Packet T)) : M T (Z * error * t) :=
  match conn c with
  | None => ret (0, Sentinel io_EOF, c)
  | Some k =>
      '(n, err, b) <- call (w3gs_SerializePacketWithBuffer env k (sbuf c) pkt) ;;
      ret (n, err, set_sbuf c b)
  end.

(** NextPacket waits for the next packet (with given timeout) and returns its
    deserialized representation *)
Definition NextPacket (c : t) (timeout : Z) : M T (option (w3gs_Packet T) * error * t) :=
  match conn c with
  | None => ret (None, Sentinel io_EOF, c)
  | Some k =>
      err <- (if timeout =? 0 then ret nil
              else now <- call (time_Now env) ;;
                   call (Conn_SetReadDeadline env k (Time_Add now timeout))) ;;
      if negb (is_nil err) then ret (None, err, c)
      else
        '(pkt, _, err, r) <-
          call (w3gs_DeserializePacketWithBuffer env (ReaderConn k) (rbuf c)) ;;
        ret (pkt, err, set_rbuf c r)
  end.

(** Run reads packets (with given max time between packets) from Conn and
    fires an event through f for each received packet *)
Fixpoint Run_loop (fuel : nat) (c : t) (timeout : Z) : M T (error * t) :=
  match fuel with
  | O => out_of_fuel
  | S fuel =>
      '(pkt, err, c) <- NextPacket c timeout ;;
      if negb (is_nil err) then
        if w3gs_recoverable err then
          Fire env [EvError (AsyncErrorPtr "Run[NextPacket]" err)] ;;
          Run_loop fuel c timeout
        else
          Fire env [EvRunStop] ;;
          ret (err, c)
      else
        Fire env [EvW3GS pkt] ;;
        Run_loop fuel c timeout
  end.

Definition Run (fuel : nat) (c : t) (timeout : Z) : M T (error * t) :=
  Fire env [EvRunStart] ;;
  Run_loop fuel c timeout.

End Handle.
End W3GSConn.

(** ** BNCSConn manages a TCP connection that transfers BNCS packets from/to
    client *)
Module BNCSConn.
Section Handle.

Context {T : Types} (env : Env T).

Record t : Type := {
  conn : option (net_Conn T);
  sbuf : bytes;
  rbuf : bncs_DeserializationBuffer T;
  lnxt : Z                               (* time.Time *)
}.

Definition set_conn (c : t) (k : option (net_Conn T)) : t :=
  {| conn := k; sbuf := sbuf c; rbuf := rbuf c; lnxt := lnxt c |}.
Definition set_sbuf (c : t) (b : bytes) : t :=
  {| conn := conn c; sbuf := b; rbuf := rbuf c; lnxt := lnxt c |}.
Definition set_rbuf (c : t) (b : bncs_DeserializationBuffer T) : t :=
  {| conn := conn c; sbuf := sbuf c; rbuf := b; lnxt := lnxt c |}.
Definition set_lnxt (c : t) (x : Z) : t :=
  {| conn := conn c; sbuf := sbuf c; rbuf := rbuf c; lnxt := x |}.

(** Conn returns the underlying net.Conn *)
Definition Conn (c : t) : M T (option (net_Conn T)) := ret (conn c).

(** Close closes the connection *)
Definition Close (c : t) : M T error :=
  match conn c with
  | Some k => call (Conn_Close env k)
  | None => ret nil
  end.

(** SetConn closes the old connection and starts using the new net.Conn *)
Definition SetConn (c : t) (k : option (net_Conn T)) : M T t :=
  Close c ;; ret (set_conn c k).

(** Send pkt to addr over net.Conn *)
Definition Send (c : t) (pkt : option (bncs_Packet T)) : M T (Z * error * t) :=
  match conn c with
  | None => ret (0, Sentinel io_EOF, c)
  | Some k =>
      '(n, err, b) <- call (bncs_SerializePacketWithBuffer env k (sbuf c) pkt) ;;
      ret (n, err, set_sbuf c b)
  end.

(** [time.Duration(math.Pow(math.Log(float64(n))/math.Log(4), 1.5))
     * (1300 * time.Millisecond)]: the conversion to [time.Duration] is
    applied to the power, and its integer result is then multiplied. *)
Definition rate_limit_delay (n : Z) : Z :=
  Duration_mul
    (int64_of_float64 env
       (math_Pow env
          (float64_div env (math_Log env (float64_of_int env n))
                           (math_Log env (float64_of_int env 4)))
          (float64_1_5 env)))
    (1300 * time_Millisecond).

(** SendRL pkt to addr over net.Conn with rate limit *)
Definition SendRL (c : t) (pkt : option (bncs_Packet T)) : M T (Z * error * t) :=
  t0 <- call (time_Now env) ;;
  (if Time_Before t0 (lnxt c)
   then call_ (time_Sleep env (Time_Sub (lnxt c) t0))
   else ret tt) ;;
  '(n, err, c) <- Send c pkt ;;
  if 0 <? n then
    now <- call (time_Now env) ;;
    ret (n, err, set_lnxt c (Time_Add now (rate_limit_delay n)))
  else ret (n, err, c).

(** NextClientPacket waits for the next client packet (with given timeout)
    and returns its deserialized representation *)
Definition NextClientPacket (c : t) (timeout : Z)
  : M T (option (bncs_Packet T) * error * t) :=
  match conn c with
  | None => ret (None, Sentinel io_EOF, c)
  | Some k =>
      err <- (if timeout =? 0 then ret nil
              else now <- call (time_Now env) ;;
                   call (Conn_SetReadDeadline env k (Time_Add now timeout))) ;;
      if negb (is_nil err) then ret (None, err, c)
      else
        '(pkt, _, err, r) <-
          call (bncs_DeserializeClientPacketWithBuffer env k (rbuf c)) ;;
        ret (pkt, err, set_rbuf c r)
  end.

(** NextServerPacket waits for the next server packet (with given timeout)
    and returns its deserialized representation *)
Definition NextServerPacket (c : t) (timeout : Z)
  : M T (option (bncs_Packet T) * error * t) :=
  match conn c with
  | None => ret (None, Sentinel io_EOF, c)
  | Some k =>
      err <- (if timeout =? 0 then ret nil
              else now <- call (time_Now env) ;;
                   call (Conn_SetReadDeadline env k (Time_Add now timeout))) ;;
      if negb (is_nil err) then ret (None, err, c)
      else
        '(pkt, _, err, r) <-
          call (bncs_DeserializeServerPacketWithBuffer env k (rbuf c)) ;;
        ret (pkt, err, set_rbuf c r)
  end.

(** RunServer reads client packets (with given max time between packets)
    from Conn and emits an event for each received packet *)
Fixpoint RunServer_loop (fuel : nat) (c : t) (timeout : Z) : M T (error * t) :=
  match fuel with
  | O => out_of_fuel
  | S fuel =>
      '(pkt, err, c) <- NextClientPacket c timeout ;;
      if negb (is_nil err) then
        if bncs_recoverable err then
          Fire env [EvError (AsyncErrorPtr "RunServer[NextPacket]" err)] ;;
          RunServer_loop fuel c timeout
        else
          Fire env [EvRunStop] ;;
          ret (err, c)
      else
        Fire env [EvBNCS pkt] ;;
        RunServer_loop fuel c timeout
  end.

Definition RunServer (fuel : nat) (c : t) (timeout : Z) : M T (error * t) :=
  Fire env [EvRunStart] ;;
  RunServer_loop fuel c timeout.

(** RunClient reads server packets (with given max time between packets)
    from Conn and emits an event for each received packet *)
Fixpoint RunClient_loop (fuel : nat) (c : t) (timeout : Z) : M T (error * t) :=
  match fuel with
  | O => out_of_fuel
  | S fuel =>
      '(pkt, err, c) <- NextServerPacket c timeout ;;
      if negb (is_nil err) then
        if bncs_recoverable err then
          Fire env [EvError (AsyncErrorPtr "RunClient[NextPacket]" err)] ;;
          RunClient_loop fuel c timeout
        else
          Fire env [EvRunStop] ;;
          ret (err, c)
      else
        Fire env [EvBNCS pkt] ;;
        RunClient_loop fuel c timeout
  end.

Definition RunClient (fuel : nat) (c : t) (timeout : Z) : M T (error * t) :=
  Fire env [EvRunStart] ;;
  RunClient_loop fuel c timeout.

End Handle.
End BNCSConn.

(** ** CAPIConn manages a websocket connection that processes CAPI requests *)
Module CAPIConn.
Section Handle.

Context {T : Types} (env : Env T).

Record t : Type := {
  conn : option (websocket_Conn T)
}.

(** Conn returns the underlying net.Conn *)
Definition Conn (c : t) : M T (option (websocket_Conn T)) := ret (conn c).

(** Close closes the connection *)
Definition Close (c : t) : M T error :=
  match conn c with
  | Some k => call (WSConn_Close env k)
  | None => ret nil
  end.

(** SetConn closes the old connection and starts using the new net.Conn *)
Definition SetConn (c : t) (k : option (websocket_Conn T)) : M T t :=
  Close c ;; ret {| conn := k |}.

(** Send pkt to addr over net.Conn *)
Definition Send (c : t) (pkt : option (capi_Packet T)) : M T (error * t) :=
  match conn c with
  | None => ret (Sentinel io_EOF, c)
  | Some k =>
      '(w, err) <- call (WSConn_NextWriter env k websocket_TextMessage) ;;
      if is_nil err then
        err <- call (capi_SerializePacket env w pkt) ;;
        call_ (WSWriter_Close env w) ;;
        ret (err, c)
      else ret (err, c)
  end.

(** NextPacket waits for the next packet (with given timeout) and returns its
    deserialized representation *)
Definition NextPacket (c : t) (timeout : Z) : M T (option (capi_Packet T) * error * t) :=
  match conn c with
  | None => ret (None, Sentinel io_EOF, c)
  | Some k =>
      err <- (if timeout =? 0 then ret nil
              else now <- call (time_Now env) ;;
                   call (WSConn_SetReadDeadline env k (Time_Add now timeout))) ;;
      if negb (is_nil err) then ret (None, err, c)
      else
        '(r, err) <- call (WSConn_NextReader env k) ;;
        if is_nil err then
          '(pkt, err) <- call (capi_DeserializePacket env r) ;;
          call_ (io_Copy_Discard env r) ;;
          ret (pkt, err, c)
        else ret (None, err, c)
  end.

(** Run reads packets (with given max time between packets) from Conn and
    fires an event through f for each received packet.  Reading
    [pkt.Payload] through a nil [pkt] panics. *)
Fixpoint Run_loop (fuel : nat) (c : t) (timeout : Z) : M T (error * t) :=
  match fuel with
  | O => out_of_fuel
  | S fuel =>
      '(pkt, err, c) <- NextPacket c timeout ;;
      if negb (is_nil err) then
        if capi_recoverable err then
          Fire env [EvError (AsyncErrorPtr "Run[NextPacket]" err)] ;;
          Run_loop fuel c timeout
        else
          Fire env [EvRunStop] ;;
          ret (err, c)
      else
        Fire env [EvCAPI pkt] ;;
        match pkt with
        | None => panic
        | Some p =>
            Fire env [EvPayload (capi_Packet_Payload env p); EvCAPI pkt] ;;
            Run_loop fuel c timeout
        end
  end.

Definition Run (fuel : nat) (c : t) (timeout : Z) : M T (error * t) :=
  Fire env [EvRunStart] ;;
  Run_loop fuel c timeout.

End Handle.
End CAPIConn.

(** ** A transport double

    A small executable instance of [Env] on which the handles can be run:
    every transport reads from one scripted inbox, writes are recorded, the
    clock only moves when the code sleeps, and a packet is a number sent as
    a signature byte, the number, and as many padding bytes. *)
Module Sim.

Inductive incoming : Type :=
| Fails (e : error)                 (* the read on the transport fails *)
| Chunk (b : bytes).                (* the read delivers these bytes *)

Record state : Type := {
  clock : Z;
  inbox : list incoming;
  closed : list nat;                (* transports closed so far, oldest first *)
  outbox : list bytes
}.

Definition T : Types := {|
  Ext := state;
  net_PacketConn := nat;
  net_Conn := nat;
  websocket_Conn := nat;
  WSReader := bytes;
  WSWriter := nat;
  w3gs_Packet := nat;
  w3gs_DeserializationBuffer := unit;
  bncs_Packet := nat;
  bncs_DeserializationBuffer := unit;
  capi_Packet := nat;
  capi_Payload := nat;
  float64 := Z                      (* fixed point, in millionths *)
|}.

Definition set_inbox (x : state) (l : list incoming) : state :=
  {| clock := clock x; inbox := l; closed := closed x; outbox := outbox x |}.

Definition close (k : nat) (x : state) : error * state :=
  (nil, {| clock := clock x; inbox := inbox x;
           closed := closed x ++ [k]; outbox := outbox x |}).

Definition write (b : bytes) (x : state) : (Z * error) * state :=
  (Z.of_nat (List.length b), nil,
   {| clock := clock x; inbox := inbox x;
      closed := closed x; outbox := outbox x ++ [b] |}).

Definition sleep (d : Z) (x : state) : state :=
  {| clock := clock x + d; inbox := inbox x;
     closed := closed x; outbox := outbox x |}.

Definition byte_of (n : nat) : Byte.byte :=
  match Byte.of_nat n with Some b => b | None => Byte.x00 end.

(** Packet [p] on the wire: the signature, then [p], then [p] bytes of
    padding. *)
Definition encode (sig : Byte.byte) (p : nat) : bytes :=
  sig :: byte_of p :: repeat Byte.x00 p.

(** Decoding: a chunk whose length does not fit has an invalid size, a chunk
    with another first byte an unexpected constant. *)
Definition decode (sig : Byte.byte) (bad_size bad_const : sentinel) (b : bytes)
  : option nat * Z * error :=
  match b with
  | s :: d :: rest =>
      if negb (Nat.eqb (List.length rest) (Byte.to_nat d)) then (None, 0, Sentinel bad_size)
      else if Byte.eqb s sig then (Some (Byte.to_nat d), Z.of_nat (List.length b), nil)
      else (None, 0, Sentinel bad_const)
  | _ => (None, 0, Sentinel bad_size)
  end.

Definition w3gs_sig : Byte.byte := Byte.xf7.
Definition bncs_sig : Byte.byte := Byte.xff.

Definition w3gs_decode : bytes -> option nat * Z * error :=
  decode w3gs_sig w3gs_ErrInvalidPacketSize w3gs_ErrUnexpectedConst.
Definition bncs_decode : bytes -> option nat * Z * error :=
  decode bncs_sig bncs_ErrInvalidPacketSize bncs_ErrUnexpectedConst.

(** The next chunk of the inbox; an empty inbox reads as end of stream. *)
Definition next (x : state) : incoming * state :=
  match inbox x with
  | [] => (Fails (Sentinel io_EOF), x)
  | i :: l => (i, set_inbox x l)
  end.

Definition read_from (buf : bytes) (x : state)
  : (Z * option net_Addr * error * bytes) * state :=
  match next x with
  | (Fails e, x) => (0, None, e, buf, x)
  | (Chunk b, x) =>
      (Z.of_nat (List.length b), Some (UDPAddr [10; 0; 0; 2] 6112), nil,
       (b ++ skipn (List.length b) buf)%list, x)
  end.

Definition stream_decode (dec : bytes -> option nat * Z * error) (x : state)
  : (option nat * Z * error * unit) * state :=
  match next x with
  | (Fails e, x) => (None, 0, e, tt, x)
  | (Chunk b, x) => (dec b, tt, x)
  end.

Definition stream_encode (sig : Byte.byte) (p : option nat) (x : state)
  : (Z * error * bytes) * state :=
  match p with
  | None => (0, Other "nil packet" None None, [], x)
  | Some p => let '(n, e, x) := write (encode sig p) x in (n, e, encode sig p, x)
  end.

Definition next_reader (x : state) : (bytes * error) * state :=
  match next x with
  | (Fails e, x) => ([], e, x)
  | (Chunk b, x) => (b, nil, x)
  end.

(** A CAPI message is read as valid when it opens with a brace; the packet
    is the byte after it and its payload the successor of that number. *)
Definition capi_decode (b : bytes) : option nat * error :=
  match b with
  | s :: d :: _ =>
      if Byte.eqb s Byte.x7b then (Some (Byte.to_nat d), nil)
      else (None, JSONSyntaxErrorPtr "invalid character looking for beginning of value" 1)
  | _ => (None, JSONSyntaxErrorPtr "unexpected end of JSON input" 0)
  end.

(** Natural logarithm in millionths, tabulated at the packet sizes that the
    comment in [SendRL] lists. *)
Definition log_table (x : Z) : Z :=
  if x =? 1000000 then 0
  else if x =? 4000000 then 1386294
  else if x =? 10000000 then 2302585
  else if x =? 25000000 then 3218876
  else if x =? 50000000 then 3912023
  else if x =? 200000000 then 5298317
  else 0.

(** [x] to the power one and a half, in millionths. *)
Definition pow_3_2 (x y : Z) : Z := x * Z.sqrt (x * 1000000) / 1000000.

Definition env : Env T := {|
  time_Now := fun x : Ext T => (clock x, x);
  time_Sleep := sleep;
  float64_of_int := fun n => n * 1000000;
  float64_1_5 := 1500000;
  float64_div := fun a b : Z => a * 1000000 / b;
  math_Log := log_table;
  math_Pow := pow_3_2;
  int64_of_float64 := fun x : Z => Z.quot x 1000000;
  PacketConn_Close := close;
  PacketConn_SetReadDeadline := fun _ _ (x : Ext T) => (nil, x);
  PacketConn_ReadFrom := fun _ => read_from;
  PacketConn_WriteTo := fun _ b _ => write b;
  Conn_Close := close;
  Conn_SetReadDeadline := fun _ _ (x : Ext T) => (nil, x);
  WSConn_Close := close;
  WSConn_SetReadDeadline := fun _ _ (x : Ext T) => (nil, x);
  WSConn_NextReader := fun _ => next_reader;
  WSConn_NextWriter := fun (k : websocket_Conn T) _ (x : Ext T) => (k, nil, x);
  WSWriter_Close := fun _ (x : Ext T) => x;
  io_Copy_Discard := fun _ (x : Ext T) => x;
  w3gs_Packet_Serialize := fun (p : w3gs_Packet T) b => (nil, (b ++ encode w3gs_sig p)%list);
  w3gs_SerializePacketWithBuffer := fun _ _ => stream_encode w3gs_sig;
  w3gs_DeserializePacketWithBuffer := fun r _ (x : Ext T) =>
    match r with
    | ReaderConn _ => stream_decode w3gs_decode x
    | ReaderBuffer b => (w3gs_decode b, tt, x)
    end;
  bncs_SerializePacketWithBuffer := fun _ _ => stream_encode bncs_sig;
  bncs_DeserializeClientPacketWithBuffer := fun _ _ => stream_decode bncs_decode;
  bncs_DeserializeServerPacketWithBuffer := fun _ _ => stream_decode bncs_decode;
  capi_SerializePacket := fun _ (p : option (capi_Packet T)) (x : Ext T) =>
    match p with
    | None => (Other "json: nil packet" None None, x)
    | Some p => let '(_, e, x) := write [Byte.x7b; byte_of p; Byte.x7d] x in (e, x)
    end;
  capi_DeserializePacket := fun r (x : Ext T) => (capi_decode r, x);
  capi_Packet_Payload := fun p : capi_Packet T => S p;
  Emitter_Fire := fun _ (x : Ext T) => x
|}.

(** A world in which nothing has been fired, at clock [t], with the given
    inbox. *)
Definition world (t : Z) (l : list incoming) : World T :=
  @Build_World T {| clock := t; inbox := l; closed := []; outbox := [] |} [].

(** Handles around transport number [k]. *)
Definition udp (k : option nat) : W3GSPacketConn.t :=
  @W3GSPacketConn.Build_t T k [] (repeat Byte.x00 2048) tt.
Definition tcp (k : option nat) : W3GSConn.t := @W3GSConn.Build_t T k [] tt.
Definition chat (k : option nat) (next_send : Z) : BNCSConn.t :=
  @BNCSConn.Build_t T k [] tt next_send.
Definition ws (k : option nat) : CAPIConn.t := @CAPIConn.Build_t T k.

(** The error of a read on a transport that was closed meanwhile. *)
Definition closed_read : error :=
  OpErrorPtr "read" "tcp" (Other "use of closed network connection" None None).

(** An inbox with a chunk that does not decode, then packet 5, then the
    failure of the read. *)
Definition w3gs_script : list incoming :=
  [Chunk [Byte.x01]; Chunk (encode w3gs_sig 5); Fails closed_read].
Definition bncs_script : list incoming :=
  [Chunk [Byte.x01]; Chunk (encode bncs_sig 5); Fails closed_read].
Definition capi_script : list incoming :=
  [Chunk [Byte.x01]; Chunk [Byte.x7b; Byte.x05; Byte.x7d]; Fails closed_read].

End Sim.

(** A computation that fires nothing. *)
Definition keeps_fired {T : Types} {A : Type} (m : M T A) : Prop :=
  forall w a w', m w = Done a w' -> fired w' = fired w.

(** ** The run loop's contract, stated once for all loops *)
Section RunContract.

Context {T : Types} (env : Env T).
Context {H P : Type}.
Variable NextPacket : H -> Z -> M T (P * error * H).
Variable Run : nat -> H -> Z -> M T (error * H).
Variable recoverable : error -> bool.
Variable src : string.
Variable events : P -> option (list (list (@EventArg T))).

(** The world after a sequence of firings. *)
Definition fire_all (fs : list (list EventArg)) (w : World T) : World T :=
  fold_left (fun w args => fire_w env args w) fs w.

(** When the receives of the loop yield, in this order, a recoverable decode
    error [e1], a decoded packet [p2] and a fatal error [e3], then a run
    with enough fuel returns [e3], and what it fired is [RunStart], the
    [AsyncError] around [e1], the firings [ev2] that [events] gives for the
    packet, and [RunStop].  [events] is [None] on what is not a decoded
    packet. *)
Definition error_packet_fatal_law : Prop :=
  forall fuel c0 timeout w0 p1 e1 c1 w1 p2 ev2 c2 w2 p3 e3 c3 w3,
    NextPacket c0 timeout (fire_w env [EvRunStart] w0) = Done (p1, e1, c1) w1 ->
    recoverable e1 = true ->
    NextPacket c1 timeout (fire_w env [EvError (AsyncErrorPtr src e1)] w1)
      = Done (p2, nil, c2) w2 ->
    events p2 = Some ev2 ->
    NextPacket c2 timeout (fire_all ev2 w2) = Done (p3, e3, c3) w3 ->
    e3 <> nil ->
    recoverable e3 = false ->
    Run (3 + fuel)%nat c0 timeout w0 = Done (e3, c3) (fire_w env [EvRunStop] w3)
    /\ fired (fire_w env [EvRunStop] w3)
       = (fired w0
          ++ [[EvRunStart]; [EvError (AsyncErrorPtr src e1)]]
          ++ ev2 ++ [[EvRunStop]])%list.

(** A run that returns, returns an error that is not nil. *)
Definition returns_an_error : Prop :=
  forall fuel c timeout w e c' w',
    Run fuel c timeout w = Done (e, c') w' -> e <> nil.

End RunContract.

(** The world in which [SendRL] calls [Send]: after the clock was read and,
    when the next send is not yet due, after the sleep. *)
Definition SendRL_entry {T : Types} (env : Env T) (c : @BNCSConn.t T) (w : World T)
  : World T :=
  let (t0, x) := time_Now env (ext w) in
  if Time_Before t0 (BNCSConn.lnxt c)
  then {| ext := time_Sleep env (Time_Sub (BNCSConn.lnxt c) t0) x; fired := fired w |}
  else {| ext := x; fired := fired w |}.

(** The pause in milliseconds that the comment in [SendRL] documents for a
    packet of [n] bytes: [log(packet_size,4)^1.5 x 1300ms], over the reals. *)
Definition documented_delay_ms (n : R) : R :=
  (1300 * Rpower (ln n / ln 4) (3 / 2))%R.

(** ** Further definitions used to state properties of the code *)

From Stdlib Require Import Ascii.

(** The string has a colon in it. *)
Fixpoint has_colon (s : string) : bool :=
  match s with
  | EmptyString => false
  | String c s' => Ascii.eqb c ":"%char || has_colon s'
  end.

(** [syscall.ECONNREFUSED] and its Windows number, as [IsConnRefusedError]
    passes them. *)
Definition refused_errnos (lib : GoLib) : list Z :=
  [ECONNREFUSED lib; WSAECONNREFUSED].

(** Every value that the computation returns satisfies [P]. *)
Definition yields {T : Types} {A : Type} (P : A -> Prop) (m : M T A) : Prop :=
  forall w a w', m w = Done a w' -> P a.

(** ** The shape of what a run loop fires *)
Section RunTrace.

Context {T : Types} {H : Type}.
Variable Run : nat -> H -> Z -> M T (error * H).
Variable recoverable : error -> bool.
Variable src : string.
Variable packet_firing : list (@EventArg T) -> Prop.

(** A firing that an iteration of the loop makes: the [AsyncError] around a
    recoverable error, tagged with the loop's source, or a firing for a
    decoded packet. *)
Definition iteration_firing (f : list EventArg) : Prop :=
  (exists e, recoverable e = true /\ f = [EvError (AsyncErrorPtr src e)])
  \/ packet_firing f.

(** A run that returns has fired [RunStart], then iteration firings only,
    then [RunStop], and returns an error that is not recoverable. *)
Definition run_trace_law : Prop :=
  forall fuel c timeout w e c' w',
    Run fuel c timeout w = Done (e, c') w' ->
    recoverable e = false
    /\ exists mid,
         fired w' = (fired w ++ [[EvRunStart]] ++ mid ++ [[EvRunStop]])%list
         /\ Forall iteration_firing mid.

End RunTrace.

(** The reading of the clock in an external state. *)
Definition clock_of {T : Types} (env : Env T) (x : Ext T) : Z :=
  fst (time_Now env x).

(** A clock that sleeping advances by at least the time slept and that
    reading does not turn back. *)
Definition clock_advances {T : Types} (env : Env T) : Prop :=
  (forall d x, 0 <= d -> clock_of env x + d <= clock_of env (time_Sleep env d x))
  /\ (forall x, clock_of env x <= clock_of env (snd (time_Now env x))).

(** The firings for a decoded packet, loop by loop. *)
Definition udp_packet_firing {T : Types} (f : list (@EventArg T)) : Prop :=
  exists pkt addr, f = [EvW3GS pkt; EvAddr addr].

Definition w3gs_packet_firing {T : Types} (f : list (@EventArg T)) : Prop :=
  exists pkt, f = [EvW3GS pkt].

Definition bncs_packet_firing {T : Types} (f : list (@EventArg T)) : Prop :=
  exists pkt, f = [EvBNCS pkt].

Definition capi_packet_firing {T : Types} (env : Env T) (f : list (@EventArg T)) : Prop :=
  exists p, f = [EvCAPI (Some p)]
            \/ f = [EvPayload (capi_Packet_Payload env p); EvCAPI (Some p)].

(** ** A transport double whose deadlines fail on closed transports

    As [Sim.env], but setting a read deadline on a transport that has been
    closed fails, as it does on a real socket. *)
Module SimClosed.

Definition deadline_error : error :=
  OpErrorPtr "set" "tcp" (Other "use of closed network connection" None None).

Definition set_deadline (k : nat) (t : Z) (x : Sim.state) : error * Sim.state :=
  if existsb (Nat.eqb k) (Sim.closed x) then (deadline_error, x) else (nil, x).

Definition env : Env Sim.T := {|
  time_Now := time_Now Sim.env;
  time_Sleep := time_Sleep Sim.env;
  float64_of_int := float64_of_int Sim.env;
  float64_1_5 := float64_1_5 Sim.env;
  float64_div := float64_div Sim.env;
  math_Log := math_Log Sim.env;
  math_Pow := math_Pow Sim.env;
  int64_of_float64 := int64_of_float64 Sim.env;
  PacketConn_Close := PacketConn_Close Sim.env;
  PacketConn_SetReadDeadline := set_deadline;
  PacketConn_ReadFrom := PacketConn_ReadFrom Sim.env;
  PacketConn_WriteTo := PacketConn_WriteTo Sim.env;
  Conn_Close := Conn_Close Sim.env;
  Conn_SetReadDeadline := set_deadline;
  WSConn_Close := WSConn_Close Sim.env;
  WSConn_SetReadDeadline := set_deadline;
  WSConn_NextReader := WSConn_NextReader Sim.env;
  WSConn_NextWriter := WSConn_NextWriter Sim.env;
  WSWriter_Close := WSWriter_Close Sim.env;
  io_Copy_Discard := io_Copy_Discard Sim.env;
  w3gs_Packet_Serialize := w3gs_Packet_Serialize Sim.env;
  w3gs_SerializePacketWithBuffer := w3gs_SerializePacketWithBuffer Sim.env;
  w3gs_DeserializePacketWithBuffer := w3gs_DeserializePacketWithBuffer Sim.env;
  bncs_SerializePacketWithBuffer := bncs_SerializePacketWithBuffer Sim.env;
  bncs_DeserializeClientPacketWithBuffer := bncs_DeserializeClientPacketWithBuffer Sim.env;
  bncs_DeserializeServerPacketWithBuffer := bncs_DeserializeServerPacketWithBuffer Sim.env;
  capi_SerializePacket := capi_SerializePacket Sim.env;
  capi_DeserializePacket := capi_DeserializePacket Sim.env;
  capi_Packet_Payload := capi_Packet_Payload Sim.env;
  Emitter_Fire := Emitter_Fire Sim.env
|}.

(** A world at clock [t] in which transport [k] has been closed and the
    inbox still holds [l]. *)
Definition closed_world (t : Z) (k : nat) (l : list Sim.incoming) : World Sim.T :=
  @Build_World Sim.T
    {| Sim.clock := t; Sim.inbox := l; Sim.closed := [k]; Sim.outbox := [] |} [].

End SimClosed.

(** * Properties of the error classifier *)

Section ClassifierFacts.

Context (lib : GoLib).

Lemma UnnestError_leaf (e : error) :
  is_wrapper e = false -> UnnestError e = Ok e.
Proof. destruct e; simpl; intros H; try reflexivity; discriminate H. Qed.

Lemma UnnestError_not_wrapper (e u : error) :
  UnnestError e = Ok u -> is_wrapper u = false.
Proof.
  induction e; simpl; intros H; auto; try discriminate H;
    injection H as <-; reflexivity.
Qed.

Lemma UnnestError_fixed (e u : error) :
  UnnestError e = Ok u -> UnnestError u = Ok u.
Proof. intros H. apply UnnestError_leaf. exact (UnnestError_not_wrapper _ _ H). Qed.




End ClassifierFacts.

Section ClosedConnection.

Context (lib : GoLib).

Lemma existsb_eqb_In (n : Z) (l : list Z) :
  existsb (fun e => Z.eqb e n) l = true <-> In n l.
Proof.
  rewrite existsb_exists. split.
  - intros (x & Hx & E). apply Z.eqb_eq in E. now subst.
  - intros H. exists n. split; [exact H | apply Z.eqb_refl].
Qed.

Lemma IsSysCallError_leaf (u : error) (errno : list Z) :
  is_wrapper u = false ->
  IsSysCallError u errno =
  Ok match u with Errno n => existsb (fun e => Z.eqb e n) errno | _ => false end.
Proof.
  intros H. unfold IsSysCallError. rewrite (UnnestError_leaf _ H).
  destruct u; reflexivity.
Qed.

Lemma Error_leaf (u : error) :
  is_wrapper u = false -> is_nil u = false -> exists s, Error lib u = Ok s.
Proof.
  destruct u; simpl; intros H N; try discriminate H; try discriminate N;
    eexists; reflexivity.
Qed.

#[local] Opaque closed_errnos.

Lemma IsConnClosedError_leaf (u : error) :
  is_wrapper u = false ->
  IsConnClosedError lib u = Ok true <->
  (u = Sentinel io_EOF
   \/ (u <> nil /\ Error lib u = Ok "use of closed network connection")
   \/ (exists n, u = Errno n /\ In n (closed_errnos lib))
   \/ u = Sentinel websocket_ErrCloseSent
   \/ exists Code Text, u = CloseErrorPtr Code Text).
Proof.
  intros W. unfold IsConnClosedError. rewrite (UnnestError_leaf _ W). simpl.
  rewrite (IsSysCallError_leaf _ _ W). unfold IsUseClosedNetworkError.
  destruct (is_sentinel u io_EOF) eqn:Eof.
  { destruct u; try discriminate Eof. destruct v; try discriminate Eof.
    split; auto. }
  destruct (is_nil u) eqn:N.
  { destruct u; try discriminate N. simpl. split; [discriminate|].
    intros [H|[[H _]|[(n & H & _)|[H|(c & t & H)]]]]; try discriminate H.
    now elim H. }
  destruct (Error_leaf u W N) as [s Hs]. rewrite Hs.
  simpl. destruct (String.eqb s "use of closed network connection") eqn:Es.
  { apply String.eqb_eq in Es. subst s. split; auto. intros _. right. left.
    split; auto. intros ->. discriminate N. }
  assert (Hne : Ok s <> Ok "use of closed network connection").
  { intros H. injection H as ->. rewrite String.eqb_refl in Es.
    discriminate Es. }
  simpl.
  destruct u; simpl in *; try discriminate W; try discriminate N;
    try (split; [discriminate|];
         intros [H|[[_ H]|[(n' & H & _)|[H|(c & t & H)]]]];
         try discriminate H; now elim Hne).
  - (* Errno *)
    destruct (existsb (fun e => e =? n) (closed_errnos lib)) eqn:Ex; simpl.
    + split; auto. intros _. right. right. left. exists n. split; auto.
      exact (proj1 (existsb_eqb_In n (closed_errnos lib)) Ex).
    + split; [discriminate|].
      intros [H|[[_ H]|[(n' & H & I)|[H|(c & t & H)]]]];
        try discriminate H; try now elim Hne.
      injection H as <-.
      pose proof (proj2 (existsb_eqb_In n (closed_errnos lib)) I). congruence.
  - (* Sentinel *)
    destruct v; simpl in *; try discriminate Eof;
      try (split; [discriminate|];
           intros [H|[[_ H]|[(n' & H & _)|[H|(c & t & H)]]]];
           try discriminate H; now elim Hne).
    split; auto.
  - (* CloseError *)
    split; auto. intros _. do 4 right. eauto.
Qed.

End ClosedConnection.

Section ClassifierTotality.

Context (lib : GoLib).

Lemma method_Temporary_leaf (u : error) :
  is_wrapper u = false ->
  method_Temporary lib u = option_map Ok (foreign_Temporary lib u).
Proof. destruct u; simpl; intros H; try reflexivity; discriminate H. Qed.

Lemma method_Timeout_leaf (u : error) :
  is_wrapper u = false ->
  method_Timeout lib u = option_map Ok (foreign_Timeout lib u).
Proof. destruct u; simpl; intros H; try reflexivity; discriminate H. Qed.

Lemma rbind_method_Timeout (e : error) (r0 : result bool) :
  rbind (UnnestError e) (fun u =>
    match foreign_Timeout lib u with Some b => Ok b | None => r0 end)
  = rbind (UnnestError e) (fun u =>
    match method_Timeout lib u with Some r => r | None => r0 end).
Proof.
  destruct (UnnestError e) as [u|] eqn:U; simpl; [|reflexivity].
  rewrite (method_Timeout_leaf u (UnnestError_not_wrapper _ _ U)).
  destruct (foreign_Timeout lib u); reflexivity.
Qed.

Lemma rbind_method_Temporary (e : error) (r0 : result bool) :
  rbind (UnnestError e) (fun u =>
    match foreign_Temporary lib u with Some b => Ok b | None => r0 end)
  = rbind (UnnestError e) (fun u =>
    match method_Temporary lib u with Some r => r | None => r0 end).
Proof.
  destruct (UnnestError e) as [u|] eqn:U; simpl; [|reflexivity].
  rewrite (method_Temporary_leaf u (UnnestError_not_wrapper _ _ U)).
  destruct (foreign_Temporary lib u); reflexivity.
Qed.

Ltac by_method_set K :=
  simpl;
  try match goal with
      | |- context [std_Temporary ?l ?e] => destruct (std_Temporary l e)
      | |- context [std_Timeout ?l ?e] => destruct (std_Timeout l e)
      | |- context [match ?o with Some _ => _ | None => _ end] => destruct o
      end;
  simpl; try reflexivity; try apply K.

Lemma IsTimeoutError_unfold (err : error) :
  IsTimeoutError lib err =
  if is_nil err then Ok false
  else match method_Timeout lib err with
       | Some r => r
       | None =>
           rbind (UnnestError err) (fun u =>
             match method_Timeout lib u with
             | Some r => r
             | None => Ok false
             end)
       end.
Proof.
  destruct err as [| | | | | |k| | | | | |];
    try destruct k; by_method_set rbind_method_Timeout.
Qed.

Lemma IsTemporaryError_unfold (err : error) :
  IsTemporaryError lib err =
  if is_nil err then Ok false
  else match method_Temporary lib err with
       | Some r => r
       | None =>
           rbind (UnnestError err) (fun u =>
             match method_Temporary lib u with
             | Some r => r
             | None => IsTimeoutError lib err
             end)
       end.
Proof.
  destruct err as [| | | | | |k| | | | | |];
    try destruct k; by_method_set rbind_method_Temporary.
Qed.






End ClassifierTotality.

(** * The classifier's documented behaviour *)



(** C10.  [UnnestError] is idempotent: unnesting its result again changes
    nothing, because the result is never one of the five wrapper kinds. *)
Theorem UnnestError_idempotent (e : error) :
  rbind (UnnestError e) UnnestError = UnnestError e
  /\ forall u, UnnestError e = Ok u ->
               is_wrapper u = false /\ UnnestError u = Ok u.
Proof.
  split.
  - destruct (UnnestError e) as [u|] eqn:U; simpl; [|reflexivity].
    exact (UnnestError_fixed _ _ U).
  - intros u U. split.
    + exact (UnnestError_not_wrapper _ _ U).
    + exact (UnnestError_fixed _ _ U).
Qed.

Lemma UnnestError_idempotent_witness :
  let e := AsyncErrorPtr "Run[NextPacket]" (OpErrorPtr "read" "udp" (Sentinel io_EOF)) in
  UnnestError e = Ok (Sentinel io_EOF)
  /\ UnnestError (Sentinel io_EOF) = Ok (Sentinel io_EOF).
Proof.
  intros e. split; [reflexivity|].
  apply (proj2 (UnnestError_idempotent e) (Sentinel io_EOF)). reflexivity.
Defined.

(** C6.  [IsConnClosedError] answers true exactly when the unnested error is
    [io.EOF], or has the message "use of closed network connection", or is
    one of the syscall codes ECONNABORTED, ECONNRESET, ENOTCONN, ESHUTDOWN,
    EPIPE or of the Windows numbers 10053, 10054, 10057, 10058, or is
    websocket's [ErrCloseSent] or a websocket close error.  A file-not-found
    error is neither closed nor refused nor a timeout. *)
Theorem IsConnClosedError_exactly (lib : GoLib) (err : error) :
  (IsConnClosedError lib err = Ok true <->
   exists u, UnnestError err = Ok u /\
     (u = Sentinel io_EOF
      \/ (u <> nil /\ Error lib u = Ok "use of closed network connection")
      \/ (exists n, u = Errno n /\
            In n [ECONNABORTED lib; ECONNRESET lib; ENOTCONN lib;
                  ESHUTDOWN lib; EPIPE lib; 10053; 10054; 10057; 10058])
      \/ u = Sentinel websocket_ErrCloseSent
      \/ exists Code Text, u = CloseErrorPtr Code Text))
  /\ IsConnClosedError Linux.lib Linux.file_not_found = Ok false
  /\ IsConnRefusedError Linux.lib Linux.file_not_found = Ok false
  /\ IsTimeoutError Linux.lib Linux.file_not_found = Ok false
  /\ IsConnClosedError Linux.lib Linux.use_of_closed = Ok true.
Proof.
  split; [|repeat split; reflexivity].
  destruct (UnnestError err) as [u|] eqn:U.
  - pose proof (UnnestError_not_wrapper _ _ U) as W.
    assert (E : IsConnClosedError lib err = IsConnClosedError lib u).
    { unfold IsConnClosedError. rewrite U, (UnnestError_leaf _ W). reflexivity. }
    rewrite E, (IsConnClosedError_leaf lib u W). split.
    + intros H. exists u. split; [reflexivity | exact H].
    + intros (u' & Hu & H). injection Hu as <-. exact H.
  - unfold IsConnClosedError. rewrite U. simpl. split; [discriminate|].
    intros (u & Hu & _). discriminate Hu.
Qed.

Lemma IsConnClosedError_exactly_witness :
  IsConnClosedError Linux.lib
    (AsyncErrorPtr "Run[NextPacket]"
       (OpErrorPtr "read" "tcp" (SyscallErrorPtr "read" (Errno 10054)))) = Ok true.
Proof.
  apply (proj1 (IsConnClosedError_exactly Linux.lib _)).
  exists (Errno 10054). split; [reflexivity|].
  right. right. left. exists 10054. split; [reflexivity|].
  simpl. do 6 right. left. reflexivity.
Defined.

(** C7, as the code has it.  If the error itself has a [Temporary()] method
    the answer is what that method reports, true or false; only when it has
    none is the unnested cause asked in the same way; and only when neither
    has the method does the answer fall back to [IsTimeoutError].  A nil
    error is not temporary. *)
Theorem IsTemporaryError_asks_method_first (lib : GoLib) (err : error) :
  IsTemporaryError lib err =
  if is_nil err then Ok false
  else match method_Temporary lib err with
       | Some r => r
       | None =>
           rbind (UnnestError err) (fun u =>
             match method_Temporary lib u with
             | Some r => r
             | None => IsTimeoutError lib err
             end)
       end.
Proof. apply IsTemporaryError_unfold. Qed.

(** C7 as worded fails: an error whose [Temporary()] reports false and whose
    [Timeout()] reports true is classified as not temporary, although the
    timeout classification that the wording falls back to answers true. *)
Lemma IsTemporaryError_no_fallback_after_false :
  IsTemporaryError Linux.lib Linux.permanent_timeout = Ok false
  /\ IsTimeoutError Linux.lib Linux.permanent_timeout = Ok true
  /\ IsTemporaryError_as_documented Linux.lib Linux.permanent_timeout = Ok true
  /\ ~ (forall err, IsTemporaryError Linux.lib err
                    = IsTemporaryError_as_documented Linux.lib err).
Proof.
  repeat split; try reflexivity.
  intros H. specialize (H Linux.permanent_timeout). discriminate H.
Qed.




(** * Properties of the connection handles *)

Section HandleFacts.

Context {T : Types} (env : Env T).

Lemma fired_fire_w (args : list EventArg) (w : World T) :
  fired (fire_w env args w) = (fired w ++ [args])%list.
Proof. reflexivity. Qed.

Lemma fired_fire_all (fs : list (list EventArg)) (w : World T) :
  fired (fire_all env fs w) = (fired w ++ fs)%list.
Proof.
  revert w. induction fs as [|a fs IH]; intros w; simpl.
  - now rewrite app_nil_r.
  - rewrite IH, fired_fire_w, <- app_assoc. reflexivity.
Qed.

End HandleFacts.

Section KeepsFired.

Context {T : Types}.

Lemma keeps_ret {A} (a : A) : keeps_fired (T:=T) (ret a).
Proof. intros w a' w' H. injection H as _ <-. reflexivity. Qed.

Lemma keeps_panic {A} : keeps_fired (T:=T) (A:=A) panic.
Proof. intros w a' w' H. discriminate H. Qed.

Lemma keeps_call {A} (f : Ext T -> A * Ext T) : keeps_fired (call f).
Proof.
  intros w a w'. unfold call. destruct (f (ext w)). intros H.
  injection H as _ <-. reflexivity.
Qed.

Lemma keeps_call_ (f : Ext T -> Ext T) : keeps_fired (call_ f).
Proof. intros w a w' H. injection H as _ <-. reflexivity. Qed.

Lemma keeps_bind {A B} (m : M T A) (f : A -> M T B) :
  keeps_fired m -> (forall a, keeps_fired (f a)) -> keeps_fired (bind m f).
Proof.
  intros Hm Hf w b w'. unfold bind. destruct (m w) as [a w1| |] eqn:E;
    try discriminate. intros H. rewrite (Hf a _ _ _ H). exact (Hm _ _ _ E).
Qed.

End KeepsFired.

Ltac keeps :=
  repeat first
    [ apply keeps_ret | apply keeps_panic | apply keeps_call | apply keeps_call_
    | apply keeps_bind; [|intros]
    | match goal with
      | |- keeps_fired (match ?x with _ => _ end) => destruct x
      | |- keeps_fired (if ?x then _ else _) => destruct x
      end ].

Section ReceiveFacts.

Context {T : Types} (env : Env T).

Lemma W3GSPacketConn_NextPacket_fired c timeout :
  keeps_fired (W3GSPacketConn.NextPacket env c timeout).
Proof. unfold W3GSPacketConn.NextPacket. keeps. Qed.

Lemma W3GSConn_NextPacket_fired c timeout :
  keeps_fired (W3GSConn.NextPacket env c timeout).
Proof. unfold W3GSConn.NextPacket. keeps. Qed.

Lemma BNCSConn_NextClientPacket_fired c timeout :
  keeps_fired (BNCSConn.NextClientPacket env c timeout).
Proof. unfold BNCSConn.NextClientPacket. keeps. Qed.

Lemma BNCSConn_NextServerPacket_fired c timeout :
  keeps_fired (BNCSConn.NextServerPacket env c timeout).
Proof. unfold BNCSConn.NextServerPacket. keeps. Qed.

Lemma CAPIConn_NextPacket_fired c timeout :
  keeps_fired (CAPIConn.NextPacket env c timeout).
Proof. unfold CAPIConn.NextPacket. keeps. Qed.

End ReceiveFacts.

Section RunFacts.

Context {T : Types} (env : Env T).

Lemma w3gs_recoverable_not_nil e : w3gs_recoverable e = true -> is_nil e = false.
Proof. destruct e; simpl; auto; discriminate. Qed.

Lemma bncs_recoverable_not_nil e : bncs_recoverable e = true -> is_nil e = false.
Proof. destruct e; simpl; auto; discriminate. Qed.

Lemma capi_recoverable_not_nil e : capi_recoverable e = true -> is_nil e = false.
Proof. destruct e; simpl; auto; discriminate. Qed.

Lemma not_nil_is_nil e : e <> nil -> is_nil e = false.
Proof. destruct e; simpl; auto. intros H. now elim H. Qed.

Lemma is_nil_false e : is_nil e = false -> e <> nil.
Proof. intros H ->. discriminate H. Qed.

(** The firings of the three iterations, collected from the worlds between
    the receives. *)
Lemma fired_three_receives
      (w0 w1 w2 w3 : World T) (a1 : list EventArg) (ev2 : list (list EventArg)) :
  fired w1 = fired (fire_w env [EvRunStart] w0) ->
  fired w2 = fired (fire_w env a1 w1) ->
  fired w3 = fired (fire_all env ev2 w2) ->
  fired (fire_w env [EvRunStop] w3)
  = (fired w0 ++ [[EvRunStart]; a1] ++ ev2 ++ [[EvRunStop]])%list.
Proof.
  intros H1 H2 H3.
  rewrite fired_fire_w, H3, fired_fire_all, H2, fired_fire_w, H1, fired_fire_w.
  rewrite <- !app_assoc. reflexivity.
Qed.

End RunFacts.

(** Follows a run through the three receives [H1], [H2], [H3] of the law;
    [N1], [R1] say that the first error is not nil and recoverable, [N3],
    [R3] that the last one is not nil and not recoverable. *)
Ltac follow_run Run Run_loop H1 N1 R1 H2 H3 N3 R3 :=
  unfold Run; cbn [Nat.add Run_loop]; unfold bind, Fire, ret;
  rewrite H1, N1, R1; cbn [negb]; rewrite H2; cbn [is_nil negb];
  unfold fire_all in H3; cbn [fold_left fst snd] in H3;
  rewrite H3, N3, R3; reflexivity.

Section RunLaws.

Context {T : Types} (env : Env T).

Lemma W3GSPacketConn_Run_law :
  error_packet_fatal_law env
    (W3GSPacketConn.NextPacket env) (W3GSPacketConn.Run env)
    w3gs_recoverable "Run[NextPacket]"
    (fun p => Some [[EvW3GS (fst p); EvAddr (snd p)]]).
Proof.
  intros fuel c0 timeout w0 [pkt1 a1] e1 c1 w1 [pkt2 a2] ev2 c2 w2 [pkt3 a3] e3 c3 w3
         H1 R1 H2 Ev H3 N3 R3.
  injection Ev as <-.
  pose proof (w3gs_recoverable_not_nil _ R1) as N1.
  pose proof (not_nil_is_nil _ N3) as N3'.
  split.
  - follow_run (@W3GSPacketConn.Run) (@W3GSPacketConn.Run_loop) H1 N1 R1 H2 H3 N3' R3.
  - apply (fired_three_receives env w0 w1 w2 w3).
    + exact (W3GSPacketConn_NextPacket_fired env _ _ _ _ _ H1).
    + exact (W3GSPacketConn_NextPacket_fired env _ _ _ _ _ H2).
    + exact (W3GSPacketConn_NextPacket_fired env _ _ _ _ _ H3).
Qed.

Lemma W3GSConn_Run_law :
  error_packet_fatal_law env
    (W3GSConn.NextPacket env) (W3GSConn.Run env)
    w3gs_recoverable "Run[NextPacket]" (fun pkt => Some [[EvW3GS pkt]]).
Proof.
  intros fuel c0 timeout w0 p1 e1 c1 w1 p2 ev2 c2 w2 p3 e3 c3 w3 H1 R1 H2 Ev H3 N3 R3.
  injection Ev as <-.
  pose proof (w3gs_recoverable_not_nil _ R1) as N1.
  pose proof (not_nil_is_nil _ N3) as N3'.
  split.
  - follow_run (@W3GSConn.Run) (@W3GSConn.Run_loop) H1 N1 R1 H2 H3 N3' R3.
  - apply (fired_three_receives env w0 w1 w2 w3).
    + exact (W3GSConn_NextPacket_fired env _ _ _ _ _ H1).
    + exact (W3GSConn_NextPacket_fired env _ _ _ _ _ H2).
    + exact (W3GSConn_NextPacket_fired env _ _ _ _ _ H3).
Qed.

Lemma BNCSConn_RunServer_law :
  error_packet_fatal_law env
    (BNCSConn.NextClientPacket env) (BNCSConn.RunServer env)
    bncs_recoverable "RunServer[NextPacket]" (fun pkt => Some [[EvBNCS pkt]]).
Proof.
  intros fuel c0 timeout w0 p1 e1 c1 w1 p2 ev2 c2 w2 p3 e3 c3 w3 H1 R1 H2 Ev H3 N3 R3.
  injection Ev as <-.
  pose proof (bncs_recoverable_not_nil _ R1) as N1.
  pose proof (not_nil_is_nil _ N3) as N3'.
  split.
  - follow_run (@BNCSConn.RunServer) (@BNCSConn.RunServer_loop) H1 N1 R1 H2 H3 N3' R3.
  - apply (fired_three_receives env w0 w1 w2 w3).
    + exact (BNCSConn_NextClientPacket_fired env _ _ _ _ _ H1).
    + exact (BNCSConn_NextClientPacket_fired env _ _ _ _ _ H2).
    + exact (BNCSConn_NextClientPacket_fired env _ _ _ _ _ H3).
Qed.

Lemma BNCSConn_RunClient_law :
  error_packet_fatal_law env
    (BNCSConn.NextServerPacket env) (BNCSConn.RunClient env)
    bncs_recoverable "RunClient[NextPacket]" (fun pkt => Some [[EvBNCS pkt]]).
Proof.
  intros fuel c0 timeout w0 p1 e1 c1 w1 p2 ev2 c2 w2 p3 e3 c3 w3 H1 R1 H2 Ev H3 N3 R3.
  injection Ev as <-.
  pose proof (bncs_recoverable_not_nil _ R1) as N1.
  pose proof (not_nil_is_nil _ N3) as N3'.
  split.
  - follow_run (@BNCSConn.RunClient) (@BNCSConn.RunClient_loop) H1 N1 R1 H2 H3 N3' R3.
  - apply (fired_three_receives env w0 w1 w2 w3).
    + exact (BNCSConn_NextServerPacket_fired env _ _ _ _ _ H1).
    + exact (BNCSConn_NextServerPacket_fired env _ _ _ _ _ H2).
    + exact (BNCSConn_NextServerPacket_fired env _ _ _ _ _ H3).
Qed.

Lemma CAPIConn_Run_law :
  error_packet_fatal_law env
    (CAPIConn.NextPacket env) (CAPIConn.Run env)
    capi_recoverable "Run[NextPacket]"
    (fun pkt =>
       match pkt with
       | Some p => Some [[EvCAPI pkt]; [EvPayload (capi_Packet_Payload env p); EvCAPI pkt]]
       | None => None
       end).
Proof.
  intros fuel c0 timeout w0 p1 e1 c1 w1 [p2|] ev2 c2 w2 p3 e3 c3 w3 H1 R1 H2 Ev H3 N3 R3;
    [|discriminate Ev].
  injection Ev as <-.
  pose proof (capi_recoverable_not_nil _ R1) as N1.
  pose proof (not_nil_is_nil _ N3) as N3'.
  split.
  - follow_run (@CAPIConn.Run) (@CAPIConn.Run_loop) H1 N1 R1 H2 H3 N3' R3.
  - apply (fired_three_receives env w0 w1 w2 w3).
    + exact (CAPIConn_NextPacket_fired env _ _ _ _ _ H1).
    + exact (CAPIConn_NextPacket_fired env _ _ _ _ _ H2).
    + exact (CAPIConn_NextPacket_fired env _ _ _ _ _ H3).
Qed.

(** A loop that has returned went through its [default] branch. *)
Ltac returned_error IH H :=
  cbn in H; unfold bind, Fire, ret in H;
  repeat match type of H with
         | context [match ?x with _ => _ end] => destruct x eqn:?
         | context [if ?x then _ else _] => destruct x eqn:?
         end;
  try discriminate H;
  try (eapply IH; exact H);
  try (injection H as <- _ _; apply is_nil_false;
       match goal with E : negb (is_nil _) = true |- _ =>
         apply negb_true_iff in E; exact E end).

Lemma W3GSPacketConn_Run_returns_an_error :
  returns_an_error (W3GSPacketConn.Run env).
Proof.
  intros fuel c timeout w e c' w'. unfold W3GSPacketConn.Run, bind at 1, Fire.
  generalize (fire_w env [EvRunStart] w). clear w.
  revert c. induction fuel as [|fuel IH]; intros c w H; [discriminate H|].
  returned_error IH H.
Qed.

Lemma W3GSConn_Run_returns_an_error :
  returns_an_error (W3GSConn.Run env).
Proof.
  intros fuel c timeout w e c' w'. unfold W3GSConn.Run, bind at 1, Fire.
  generalize (fire_w env [EvRunStart] w). clear w.
  revert c. induction fuel as [|fuel IH]; intros c w H; [discriminate H|].
  returned_error IH H.
Qed.

Lemma BNCSConn_RunServer_returns_an_error :
  returns_an_error (BNCSConn.RunServer env).
Proof.
  intros fuel c timeout w e c' w'. unfold BNCSConn.RunServer, bind at 1, Fire.
  generalize (fire_w env [EvRunStart] w). clear w.
  revert c. induction fuel as [|fuel IH]; intros c w H; [discriminate H|].
  returned_error IH H.
Qed.

Lemma BNCSConn_RunClient_returns_an_error :
  returns_an_error (BNCSConn.RunClient env).
Proof.
  intros fuel c timeout w e c' w'. unfold BNCSConn.RunClient, bind at 1, Fire.
  generalize (fire_w env [EvRunStart] w). clear w.
  revert c. induction fuel as [|fuel IH]; intros c w H; [discriminate H|].
  returned_error IH H.
Qed.

Lemma CAPIConn_Run_returns_an_error :
  returns_an_error (CAPIConn.Run env).
Proof.
  intros fuel c timeout w e c' w'. unfold CAPIConn.Run, bind at 1, Fire.
  generalize (fire_w env [EvRunStart] w). clear w.
  revert c. induction fuel as [|fuel IH]; intros c w H; [discriminate H|].
  returned_error IH H.
Qed.

End RunLaws.

Section RateLimit.

Context {T : Types} (env : Env T).

Lemma BNCSConn_Send_lnxt (c : BNCSConn.t) pkt (w : World T) n err c' w' :
  BNCSConn.Send env c pkt w = Done (n, err, c') w' ->
  BNCSConn.lnxt c' = BNCSConn.lnxt c.
Proof.
  unfold BNCSConn.Send, bind, call, ret.
  destruct (BNCSConn.conn c).
  - destruct (bncs_SerializePacketWithBuffer env _ _ _ _) as [[[? ?] ?] ?].
    intros H. injection H as _ _ <- _. reflexivity.
  - intros H. injection H as _ _ <- _. reflexivity.
Qed.

Lemma SendRL_unfold (c : BNCSConn.t) pkt (w : World T) :
  BNCSConn.SendRL env c pkt w =
  match BNCSConn.Send env c pkt (SendRL_entry env c w) with
  | Done (n, err, c') w' =>
      if 0 <? n then
        let (now, x) := time_Now env (ext w') in
        Done (n, err,
              BNCSConn.set_lnxt c' (Time_Add now (BNCSConn.rate_limit_delay env n)))
             {| ext := x; fired := fired w' |}
      else Done (n, err, c') w'
  | Panic => Panic
  | OutOfFuel => OutOfFuel
  end.
Proof.
  unfold BNCSConn.SendRL, SendRL_entry, bind, call, call_, ret.
  destruct (time_Now env (ext w)) as [t0 x].
  destruct (Time_Before t0 (BNCSConn.lnxt c)); cbn [ext fired];
    destruct (BNCSConn.Send env c pkt _) as [[[n err] c'] w'| |]; try reflexivity;
    destruct (0 <? n); try reflexivity;
    destruct (time_Now env (ext w')); reflexivity.
Qed.

End RateLimit.

Section DocumentedDelay.

Local Open Scope R_scope.

Lemma ln_pow_lt (a b : R) (p q : nat) :
  0 < a -> 0 < b -> a ^ p < b ^ q -> INR p * ln a < INR q * ln b.
Proof.
  intros Ha Hb H.
  rewrite <- !ln_pow by assumption.
  apply ln_increasing; [apply pow_lt; assumption | exact H].
Qed.

(** 4^8 < 10^5 and 10 < 4^2. *)
Lemma log4_10_bounds : 8 / 5 < ln 10 / ln 4 < 2.
Proof.
  assert (L4 : 0 < ln 4).
  { rewrite <- ln_1. apply ln_increasing; lra. }
  assert (A : INR 8 * ln 4 < INR 5 * ln 10).
  { apply ln_pow_lt; simpl; lra. }
  assert (B : INR 1 * ln 10 < INR 2 * ln 4).
  { apply ln_pow_lt; simpl; lra. }
  simpl in A, B.
  split; apply Rmult_lt_reg_r with (ln 4); try exact L4;
    replace (ln 10 / ln 4 * ln 4) with (ln 10) by (field; lra); lra.
Qed.

Lemma Rpower_3_2_sqr (x : R) :
  0 < x -> Rpower x (3 / 2) * Rpower x (3 / 2) = x * x * x.
Proof.
  intros Hx. rewrite <- Rpower_plus.
  replace (3 / 2 + 3 / 2) with (INR 3) by (simpl; lra).
  rewrite Rpower_pow by assumption. simpl. ring.
Qed.

(** The documented pause for a packet of 10 bytes is more than two and less
    than three units of 1300ms. *)
Lemma documented_delay_10 : 2600 < documented_delay_ms 10 < 3900.
Proof.
  destruct log4_10_bounds as [Lo Hi].
  set (x := ln 10 / ln 4) in *.
  assert (Hx : 0 < x) by lra.
  pose proof (Rpower_3_2_sqr x Hx) as Sq.
  assert (Pos : 0 < Rpower x (3 / 2)) by (unfold Rpower; apply exp_pos).
  unfold documented_delay_ms. fold x.
  set (y := Rpower x (3 / 2)) in *.
  assert (C1 : 4 < x * x * x) by nra.
  assert (C2 : x * x * x < 9) by nra.
  split; nra.
Qed.

(** For a packet of 4 bytes it is 1300ms. *)
Lemma documented_delay_4 : documented_delay_ms 4 = 1300.
Proof.
  unfold documented_delay_ms.
  assert (L4 : 0 < ln 4).
  { rewrite <- ln_1. apply ln_increasing; lra. }
  replace (ln 4 / ln 4) with 1 by (field; lra).
  unfold Rpower. rewrite ln_1, Rmult_0_r, exp_0. lra.
Qed.

End DocumentedDelay.

(** * The connection handles' documented behaviour *)

(** C2.  On a handle with no transport attached, [Send] (and [Broadcast])
    returns zero bytes written and [io.EOF], and [NextPacket],
    [NextClientPacket] and [NextServerPacket] return [io.EOF], for every
    connection variant; the call returns at once, nothing outside the handle
    has happened, and the handle (transport reference, buffers, the time of
    the next rate-limited send) is what it was. *)
Theorem no_transport_is_end_of_stream {T : Types} (env : Env T) :
  (forall (c : W3GSPacketConn.t) addr pkt timeout w,
      W3GSPacketConn.conn c = None ->
      W3GSPacketConn.Send env c addr pkt w = Done (0, Sentinel io_EOF, c) w
      /\ W3GSPacketConn.Broadcast env c pkt w = Done (0, Sentinel io_EOF, c) w
      /\ W3GSPacketConn.NextPacket env c timeout w
         = Done (None, None, Sentinel io_EOF, c) w)
  /\ (forall (c : W3GSConn.t) pkt timeout w,
      W3GSConn.conn c = None ->
      W3GSConn.Send env c pkt w = Done (0, Sentinel io_EOF, c) w
      /\ W3GSConn.NextPacket env c timeout w = Done (None, Sentinel io_EOF, c) w)
  /\ (forall (c : BNCSConn.t) pkt timeout w,
      BNCSConn.conn c = None ->
      BNCSConn.Send env c pkt w = Done (0, Sentinel io_EOF, c) w
      /\ BNCSConn.NextClientPacket env c timeout w = Done (None, Sentinel io_EOF, c) w
      /\ BNCSConn.NextServerPacket env c timeout w = Done (None, Sentinel io_EOF, c) w)
  /\ (forall (c : CAPIConn.t) pkt timeout w,
      CAPIConn.conn c = None ->
      CAPIConn.Send env c pkt w = Done (Sentinel io_EOF, c) w
      /\ CAPIConn.NextPacket env c timeout w = Done (None, Sentinel io_EOF, c) w).
Proof.
  repeat split;
    unfold W3GSPacketConn.Broadcast,
           W3GSPacketConn.Send, W3GSPacketConn.NextPacket,
           W3GSConn.Send, W3GSConn.NextPacket,
           BNCSConn.Send, BNCSConn.NextClientPacket, BNCSConn.NextServerPacket,
           CAPIConn.Send, CAPIConn.NextPacket;
    match goal with H : _ = None |- _ => rewrite H end; reflexivity.
Qed.

Lemma no_transport_is_end_of_stream_witness :
  W3GSPacketConn.Send Sim.env (Sim.udp None) (Some W3GSBroadcastAddr) (Some 3%nat)
    (Sim.world 0 [Sim.Chunk (Sim.encode Sim.w3gs_sig 5)])
  = Done (0, Sentinel io_EOF, Sim.udp None)
         (Sim.world 0 [Sim.Chunk (Sim.encode Sim.w3gs_sig 5)])
  /\ W3GSConn.NextPacket Sim.env (Sim.tcp None) 1000
       (Sim.world 0 [Sim.Chunk (Sim.encode Sim.w3gs_sig 5)])
     = Done (None, Sentinel io_EOF, Sim.tcp None)
            (Sim.world 0 [Sim.Chunk (Sim.encode Sim.w3gs_sig 5)])
  /\ BNCSConn.NextServerPacket Sim.env (Sim.chat None 42) 1000
       (Sim.world 0 [Sim.Chunk (Sim.encode Sim.bncs_sig 5)])
     = Done (None, Sentinel io_EOF, Sim.chat None 42)
            (Sim.world 0 [Sim.Chunk (Sim.encode Sim.bncs_sig 5)])
  /\ CAPIConn.Send Sim.env (Sim.ws None) (Some 3%nat) (Sim.world 0 [])
     = Done (Sentinel io_EOF, Sim.ws None) (Sim.world 0 []).
Proof.
  destruct (no_transport_is_end_of_stream Sim.env) as (Hudp & Htcp & Hchat & Hws).
  split; [apply (Hudp (Sim.udp None) (Some W3GSBroadcastAddr) (Some 3%nat) 0); reflexivity|].
  split; [apply (Htcp (Sim.tcp None) None 1000); reflexivity|].
  split; [apply (Hchat (Sim.chat None 42) None 1000); reflexivity|].
  apply (Hws (Sim.ws None) (Some 3%nat) 0); reflexivity.
Defined.

(** C4.  [SetConn] first closes the transport that is attached, if any, and
    then installs the new one: it returns in the world that [Close] left,
    with the handle changed in its transport only, so that [Conn] then
    yields the new transport and the close of the previous one has already
    taken place. *)
Theorem SetConn_closes_then_installs {T : Types} (env : Env T) :
  (forall (c : W3GSPacketConn.t) new w,
      exists e w',
        W3GSPacketConn.Close env c w = Done e w'
        /\ W3GSPacketConn.SetConn env c new w = Done (W3GSPacketConn.set_conn c new) w'
        /\ W3GSPacketConn.Conn (W3GSPacketConn.set_conn c new) w' = Done new w'
        /\ fired w' = fired w
        /\ ext w' = match W3GSPacketConn.conn c with
                    | Some old => snd (PacketConn_Close env old (ext w))
                    | None => ext w
                    end)
  /\ (forall (c : W3GSConn.t) new w,
      exists e w',
        W3GSConn.Close env c w = Done e w'
        /\ W3GSConn.SetConn env c new w = Done (W3GSConn.set_conn c new) w'
        /\ W3GSConn.Conn (W3GSConn.set_conn c new) w' = Done new w'
        /\ fired w' = fired w
        /\ ext w' = match W3GSConn.conn c with
                    | Some old => snd (Conn_Close env old (ext w))
                    | None => ext w
                    end)
  /\ (forall (c : BNCSConn.t) new w,
      exists e w',
        BNCSConn.Close env c w = Done e w'
        /\ BNCSConn.SetConn env c new w = Done (BNCSConn.set_conn c new) w'
        /\ BNCSConn.Conn (BNCSConn.set_conn c new) w' = Done new w'
        /\ fired w' = fired w
        /\ ext w' = match BNCSConn.conn c with
                    | Some old => snd (Conn_Close env old (ext w))
                    | None => ext w
                    end)
  /\ (forall (c : CAPIConn.t) new w,
      exists e w',
        CAPIConn.Close env c w = Done e w'
        /\ CAPIConn.SetConn env c new w = Done {| CAPIConn.conn := new |} w'
        /\ CAPIConn.Conn {| CAPIConn.conn := new |} w' = Done new w'
        /\ fired w' = fired w
        /\ ext w' = match CAPIConn.conn c with
                    | Some old => snd (WSConn_Close env old (ext w))
                    | None => ext w
                    end).
Proof.
  repeat split; intros c new w;
    unfold W3GSPacketConn.SetConn, W3GSPacketConn.Close,
           W3GSPacketConn.Conn, W3GSConn.Conn, BNCSConn.Conn, CAPIConn.Conn,
           W3GSConn.SetConn, W3GSConn.Close,
           BNCSConn.SetConn, BNCSConn.Close,
           CAPIConn.SetConn, CAPIConn.Close, bind, call, ret;
    match goal with
    | |- context [match ?k with Some _ => _ | None => _ end] => destruct k as [old|]
    end;
    try match goal with
        | |- context [let (_, _) := ?f (ext w) in _] => destruct (f (ext w)) eqn:E
        end;
    do 2 eexists; repeat split; reflexivity.
Qed.

Lemma SetConn_closes_then_installs_witness :
  exists w',
    BNCSConn.SetConn Sim.env (Sim.chat (Some 1%nat) 0) (Some 2%nat) (Sim.world 0 [])
    = Done (Sim.chat (Some 2%nat) 0) w'
    /\ BNCSConn.Conn (Sim.chat (Some 2%nat) 0) w' = Done (Some 2%nat) w'
    /\ Sim.closed (ext w') = [1%nat].
Proof.
  destruct (SetConn_closes_then_installs Sim.env) as (_ & _ & Hchat & _).
  destruct (Hchat (Sim.chat (Some 1%nat) 0) (Some 2%nat) (Sim.world 0 []))
    as (e & w' & _ & Hset & Hconn & _ & Hext).
  exists w'. split; [exact Hset|]. split; [exact Hconn|].
  change (Sim.closed (ext w') = [1%nat]). rewrite Hext. reflexivity.
Defined.

(** C1, as the code has it.  When the successive receives yield a recoverable
    decode error, then a decoded packet, then a fatal error, each run loop
    returns the fatal error and has fired exactly [RunStart], one
    [AsyncError] around the decode error, the packet, and [RunStop]; the
    packet is one firing in the datagram loop (packet and address) and in
    the W3GS and BNCS stream loops, and in the CAPI loop it is the firing of
    the packet followed by the firing of its payload.  No run loop ever
    returns a nil error. *)
Theorem run_loops_error_packet_fatal {T : Types} (env : Env T) :
  (error_packet_fatal_law env
     (W3GSPacketConn.NextPacket env) (W3GSPacketConn.Run env)
     w3gs_recoverable "Run[NextPacket]"
     (fun p => Some [[EvW3GS (fst p); EvAddr (snd p)]])
   /\ error_packet_fatal_law env
        (W3GSConn.NextPacket env) (W3GSConn.Run env)
        w3gs_recoverable "Run[NextPacket]" (fun pkt => Some [[EvW3GS pkt]])
   /\ error_packet_fatal_law env
        (BNCSConn.NextClientPacket env) (BNCSConn.RunServer env)
        bncs_recoverable "RunServer[NextPacket]" (fun pkt => Some [[EvBNCS pkt]])
   /\ error_packet_fatal_law env
        (BNCSConn.NextServerPacket env) (BNCSConn.RunClient env)
        bncs_recoverable "RunClient[NextPacket]" (fun pkt => Some [[EvBNCS pkt]])
   /\ error_packet_fatal_law env
        (CAPIConn.NextPacket env) (CAPIConn.Run env)
        capi_recoverable "Run[NextPacket]"
        (fun pkt =>
           match pkt with
           | Some p =>
               Some [[EvCAPI pkt]; [EvPayload (capi_Packet_Payload env p); EvCAPI pkt]]
           | None => None
           end))
  /\ returns_an_error (W3GSPacketConn.Run env)
  /\ returns_an_error (W3GSConn.Run env)
  /\ returns_an_error (BNCSConn.RunServer env)
  /\ returns_an_error (BNCSConn.RunClient env)
  /\ returns_an_error (CAPIConn.Run env).
Proof.
  exact (conj
           (conj (W3GSPacketConn_Run_law env)
              (conj (W3GSConn_Run_law env)
                 (conj (BNCSConn_RunServer_law env)
                    (conj (BNCSConn_RunClient_law env) (CAPIConn_Run_law env)))))
           (conj (W3GSPacketConn_Run_returns_an_error env)
              (conj (W3GSConn_Run_returns_an_error env)
                 (conj (BNCSConn_RunServer_returns_an_error env)
                    (conj (BNCSConn_RunClient_returns_an_error env)
                       (CAPIConn_Run_returns_an_error env)))))).
Qed.

Lemma run_loops_error_packet_fatal_witness :
  (exists c w,
      W3GSPacketConn.Run Sim.env 3 (Sim.udp (Some 1%nat)) 0 (Sim.world 0 Sim.w3gs_script)
      = Done (Sim.closed_read, c) w
      /\ fired w =
         [[EvRunStart];
          [EvError (AsyncErrorPtr "Run[NextPacket]" (Sentinel w3gs_ErrInvalidPacketSize))];
          [@EvW3GS Sim.T (Some 5%nat); EvAddr (Some (UDPAddr [10; 0; 0; 2] 6112))];
          [EvRunStop]]
      /\ Sim.closed_read <> nil)
  /\ (exists c w,
      BNCSConn.RunClient Sim.env 3 (Sim.chat (Some 1%nat) 0) 0 (Sim.world 0 Sim.bncs_script)
      = Done (Sim.closed_read, c) w
      /\ fired w =
         [[EvRunStart];
          [EvError (AsyncErrorPtr "RunClient[NextPacket]" (Sentinel bncs_ErrInvalidPacketSize))];
          [@EvBNCS Sim.T (Some 5%nat)];
          [EvRunStop]])
  /\ (exists c w,
      CAPIConn.Run Sim.env 3 (Sim.ws (Some 1%nat)) 0 (Sim.world 0 Sim.capi_script)
      = Done (Sim.closed_read, c) w
      /\ fired w =
         [[EvRunStart];
          [EvError (AsyncErrorPtr "Run[NextPacket]"
                      (JSONSyntaxErrorPtr "unexpected end of JSON input" 0))];
          [@EvCAPI Sim.T (Some 5%nat)];
          [@EvPayload Sim.T 6%nat; @EvCAPI Sim.T (Some 5%nat)];
          [EvRunStop]]).
Proof.
  destruct (run_loops_error_packet_fatal Sim.env)
    as ((Hudp & _ & _ & Hclient & Hws) & Rudp & _).
  split; [|split].
  - edestruct (Hudp 0%nat (Sim.udp (Some 1%nat)) 0 (Sim.world 0 Sim.w3gs_script))
      as [Hrun Hfired];
      [lazy; reflexivity | reflexivity | lazy; reflexivity | reflexivity
       | lazy; reflexivity | discriminate | reflexivity |].
    do 2 eexists. split; [exact Hrun|]. split; [exact Hfired|].
    exact (Rudp _ _ _ _ _ _ _ Hrun).
  - edestruct (Hclient 0%nat (Sim.chat (Some 1%nat) 0) 0 (Sim.world 0 Sim.bncs_script))
      as [Hrun Hfired];
      [lazy; reflexivity | reflexivity | lazy; reflexivity | reflexivity
       | lazy; reflexivity | discriminate | reflexivity |].
    do 2 eexists. split; [exact Hrun | exact Hfired].
  - edestruct (Hws 0%nat (Sim.ws (Some 1%nat)) 0 (Sim.world 0 Sim.capi_script))
      as [Hrun Hfired];
      [lazy; reflexivity | reflexivity | lazy; reflexivity | reflexivity
       | lazy; reflexivity | discriminate | reflexivity |].
    do 2 eexists. split; [exact Hrun | exact Hfired].
Defined.

(** C1 as worded fails for the CAPI loop: between the [AsyncError] and
    [RunStop] it fires twice, the packet and then its payload, so the law
    with a single packet firing does not hold of it. *)
Lemma CAPIConn_Run_fires_the_payload_too :
  (exists c w,
      CAPIConn.Run Sim.env 3 (Sim.ws (Some 1%nat)) 0 (Sim.world 0 Sim.capi_script)
      = Done (Sim.closed_read, c) w
      /\ List.length (fired w) = 5%nat)
  /\ ~ error_packet_fatal_law Sim.env
         (CAPIConn.NextPacket Sim.env) (CAPIConn.Run Sim.env)
         capi_recoverable "Run[NextPacket]" (fun pkt => Some [[EvCAPI pkt]]).
Proof.
  split.
  - do 2 eexists. split; reflexivity.
  - intros L.
    edestruct (L 0%nat (Sim.ws (Some 1%nat)) 0 (Sim.world 0 Sim.capi_script))
      as [Hrun _];
      [lazy; reflexivity | reflexivity | lazy; reflexivity | reflexivity
       | lazy; reflexivity | discriminate | reflexivity |].
    discriminate Hrun.
Qed.



(** C3, what the code stores.  After [SendRL] has sent [n > 0] bytes, the
    time of the next send is the clock reading taken after the send plus
    [k] times 1300ms, where [k] is the integer to which the conversion to
    [time.Duration] truncates [(log n / log 4) ^ 1.5]: the power is
    truncated before it is scaled, so the pause is a whole number of
    1300ms units.  With [n <= 0] the stored time is unchanged.  The pause
    that the comment in [SendRL] documents for 10 bytes lies strictly
    between two and three such units, and for 4 bytes it is one unit. *)
Theorem SendRL_scales_the_truncated_power {T : Types} (env : Env T)
        (c : BNCSConn.t) pkt (w : World T) n err c1 w1 :
  BNCSConn.SendRL env c pkt w = Done (n, err, c1) w1 ->
  (forall k,
      0 < n ->
      int64_of_float64 env
        (math_Pow env
           (float64_div env (math_Log env (float64_of_int env n))
                            (math_Log env (float64_of_int env 4)))
           (float64_1_5 env)) = k ->
      0 <= k < 2 ^ 32 ->
      exists c' w',
        BNCSConn.Send env c pkt (SendRL_entry env c w) = Done (n, err, c') w'
        /\ BNCSConn.lnxt c1
           = fst (time_Now env (ext w')) + k * (1300 * time_Millisecond))
  /\ (n <= 0 -> BNCSConn.lnxt c1 = BNCSConn.lnxt c)
  /\ (2 * 1300 < documented_delay_ms 10 < 3 * 1300)%R
  /\ documented_delay_ms 4 = 1300%R.
Proof.
  intros Hrun.
  cut ((forall k,
           0 < n ->
           int64_of_float64 env
             (math_Pow env
                (float64_div env (math_Log env (float64_of_int env n))
                                 (math_Log env (float64_of_int env 4)))
                (float64_1_5 env)) = k ->
           0 <= k < 2 ^ 32 ->
           exists c' w',
             BNCSConn.Send env c pkt (SendRL_entry env c w) = Done (n, err, c') w'
             /\ BNCSConn.lnxt c1
                = fst (time_Now env (ext w')) + k * (1300 * time_Millisecond))
       /\ (n <= 0 -> BNCSConn.lnxt c1 = BNCSConn.lnxt c)).
  { intros [A B]. split; [exact A|]. split; [exact B|].
    split; [|exact documented_delay_4].
    destruct documented_delay_10 as [Lo Hi]. split; lra. }
  revert Hrun.
  rewrite SendRL_unfold.
  destruct (BNCSConn.Send env c pkt (SendRL_entry env c w))
    as [[[n' err'] c'] w'| |] eqn:E; try discriminate.
  pose proof (BNCSConn_Send_lnxt env _ _ _ _ _ _ _ E) as Hl.
  destruct (0 <? n') eqn:Pos.
  - destruct (time_Now env (ext w')) as [now x] eqn:N. intros H.
    injection H as <- <- <- <-. apply Z.ltb_lt in Pos. split; [|lia].
    intros k _ Hk Hr. exists c', w'. split; [reflexivity|].
    rewrite N. cbn [fst BNCSConn.lnxt BNCSConn.set_lnxt].
    unfold BNCSConn.rate_limit_delay. rewrite Hk.
    unfold Duration_mul, wrap64, Time_Add, time_Millisecond in *.
    f_equal. rewrite Z.mod_small by lia. lia.
  - intros H. injection H as <- <- <- <-. apply Z.ltb_ge in Pos.
    split; [lia | intros _; exact Hl].
Qed.

Lemma SendRL_scales_the_truncated_power_witness :
  exists c1 w1,
    BNCSConn.SendRL Sim.env (Sim.chat (Some 1%nat) 0) (Some 8%nat) (Sim.world 100 [])
    = Done (10, nil, c1) w1
    /\ BNCSConn.lnxt c1 = 100 + 2 * (1300 * time_Millisecond).
Proof.
  eexists. eexists. split; [reflexivity|].
  destruct (SendRL_scales_the_truncated_power Sim.env
              (Sim.chat (Some 1%nat) 0) (Some 8%nat) (Sim.world 100 [])
              10 nil _ _ eq_refl) as [H _].
  destruct (H 2) as (c' & w' & HS & Hl); [lia | reflexivity | lia |].
  rewrite Hl. injection HS as _ <-. reflexivity.
Defined.

(** * Further properties of the error classifier *)

Lemma Ok_inj {A} (a b : A) : Ok a = Ok b -> a = b.
Proof. intros H. now injection H. Qed.

Lemma existsb_Zeqb_In (n : Z) (l : list Z) :
  existsb (Z.eqb n) l = true <-> In n l.
Proof.
  rewrite existsb_exists. split.
  - intros (x & Hx & E). apply Z.eqb_eq in E. now subst.
  - intros H. exists n. split; [exact H | apply Z.eqb_refl].
Qed.

Section ClassifierExtras.

Context (lib : GoLib).

Lemma IsConnRefusedError_leaf (u : error) :
  is_wrapper u = false ->
  IsConnRefusedError lib u =
  Ok match u with
     | Errno n => existsb (fun e => Z.eqb e n) (refused_errnos lib)
     | CloseErrorPtr code _ =>
         existsb (Z.eqb code)
           [websocket_CloseTLSHandshake; websocket_CloseMandatoryExtension]
     | _ => false
     end.
Proof.
  intros W. unfold IsConnRefusedError. rewrite (UnnestError_leaf _ W).
  cbn [rbind]. rewrite (IsSysCallError_leaf _ _ W). cbn [rbind].
  destruct u; try reflexivity.
  fold (refused_errnos lib).
  destruct (existsb (fun e => e =? n) (refused_errnos lib)); reflexivity.
Qed.

Lemma has_colon_app (a b : string) :
  has_colon (a ++ b) = has_colon a || has_colon b.
Proof.
  induction a as [|c a IH]; simpl; [reflexivity|].
  rewrite IH. apply orb_assoc.
Qed.

Lemma AsyncError_Error_has_colon (Src : string) (e : error) (s : string) :
  Error lib (AsyncErrorPtr Src e) = Ok s -> has_colon s = true.
Proof.
  cbn [Error]. destruct e;
    try (intros H; injection H as <-;
         rewrite has_colon_app; simpl; apply orb_true_r);
    match goal with
    | |- rbind ?r _ = _ -> _ => destruct r as [m|]; cbn [rbind]
    end;
    try discriminate;
    intros H; injection H as <-; rewrite has_colon_app; simpl; apply orb_true_r.
Qed.

Lemma classified_by_innermost_cause_aux (err u : error) :
  UnnestError err = Ok u ->
  IsConnClosedError lib err = IsConnClosedError lib u
  /\ IsConnRefusedError lib err = IsConnRefusedError lib u.
Proof.
  intros U. pose proof (UnnestError_fixed _ _ U) as F.
  unfold IsConnClosedError, IsConnRefusedError. rewrite U, F. split; reflexivity.
Qed.

End ClassifierExtras.

(** X1.  The closed, refused and syscall classifications depend only on the
    innermost cause: an error and what [UnnestError] returns for it are
    classified alike, whatever wrappers lie between them. *)
Theorem classified_by_innermost_cause (lib : GoLib) (err u : error) (errno : list Z) :
  UnnestError err = Ok u ->
  IsConnClosedError lib err = IsConnClosedError lib u
  /\ IsConnRefusedError lib err = IsConnRefusedError lib u
  /\ IsSysCallError err errno = IsSysCallError u errno.
Proof.
  intros U. pose proof (UnnestError_fixed _ _ U) as F.
  unfold IsConnClosedError, IsConnRefusedError, IsSysCallError.
  rewrite U, F. repeat split; reflexivity.
Qed.

Lemma classified_by_innermost_cause_witness :
  IsConnClosedError Linux.lib
    (AsyncErrorPtr "Run[NextPacket]" (OpErrorPtr "read" "tcp" (Errno 104)))
  = IsConnClosedError Linux.lib (Errno 104)
  /\ IsConnClosedError Linux.lib (Errno 104) = Ok true.
Proof.
  split; [|reflexivity].
  apply (classified_by_innermost_cause Linux.lib _ (Errno 104) []). reflexivity.
Defined.

(** X2.  [IsConnRefusedError] answers true exactly when the innermost cause
    is the syscall code ECONNREFUSED or the Windows number 10061, or a
    websocket close error with code 1015 (TLS handshake) or 1010 (mandatory
    extension). *)
Theorem IsConnRefusedError_exactly (lib : GoLib) (err : error) :
  IsConnRefusedError lib err = Ok true <->
  exists u, UnnestError err = Ok u /\
    ((exists n, u = Errno n /\ (n = ECONNREFUSED lib \/ n = 10061))
     \/ (exists Code Text, u = CloseErrorPtr Code Text /\ (Code = 1015 \/ Code = 1010))).
Proof.
  destruct (UnnestError err) as [u|] eqn:U.
  - pose proof (UnnestError_not_wrapper _ _ U) as W.
    destruct (classified_by_innermost_cause_aux lib err u U) as [_ E].
    rewrite E, (IsConnRefusedError_leaf lib u W). split.
    + intros H. apply Ok_inj in H. exists u. split; [reflexivity|].
      destruct u; try discriminate H.
      * left. exists n. split; [reflexivity|].
        apply existsb_eqb_In in H. destruct H as [H|[H|[]]]; auto.
      * right. exists Code, Text. split; [reflexivity|].
        apply existsb_Zeqb_In in H. destruct H as [H|[H|[]]]; auto.
    + intros (u' & Hu & H). injection Hu as <-. f_equal.
      destruct H as [(n & -> & H)|(c & t & -> & H)].
      * apply existsb_eqb_In. destruct H as [->| ->]; [left|right; left]; reflexivity.
      * apply existsb_Zeqb_In. destruct H as [->| ->]; [left|right; left]; reflexivity.
  - unfold IsConnRefusedError. rewrite U. split; [discriminate|].
    intros (u & Hu & _). discriminate Hu.
Qed.

Lemma IsConnRefusedError_exactly_witness :
  IsConnRefusedError Linux.lib
    (OpErrorPtr "dial" "tcp" (SyscallErrorPtr "connect" (Errno 111))) = Ok true.
Proof.
  apply (proj2 (IsConnRefusedError_exactly Linux.lib _)).
  exists (Errno 111). split; [reflexivity|].
  left. exists 111. split; [reflexivity | left; reflexivity].
Defined.

(** X3.  [IsSysCallError] answers true exactly when the innermost cause is a
    [syscall.Errno] that occurs among the codes passed; with no codes
    passed, and for an error whose innermost cause is nil, it answers
    false. *)
Theorem IsSysCallError_exactly (err : error) (errno : list Z) :
  (IsSysCallError err errno = Ok true <->
   exists n, UnnestError err = Ok (Errno n) /\ In n errno)
  /\ (forall u, UnnestError err = Ok u -> IsSysCallError err [] = Ok false)
  /\ (UnnestError err = Ok nil -> IsSysCallError err errno = Ok false).
Proof.
  unfold IsSysCallError.
  destruct (UnnestError err) as [u|] eqn:U; cbn [rbind].
  - repeat split.
    + intros H. destruct u; try discriminate H. cbn [is_nil] in H.
      apply Ok_inj in H. exists n. split; [reflexivity|].
      now apply existsb_eqb_In.
    + intros (n & Hn & I). injection Hn as ->. cbn [is_nil]. f_equal.
      now apply existsb_eqb_In.
    + intros _ _. destruct u; reflexivity.
    + intros H. injection H as ->. reflexivity.
  - repeat split; try discriminate.
    intros (n & Hn & _). discriminate Hn.
Qed.

Lemma IsSysCallError_exactly_witness :
  IsSysCallError (PathErrorPtr "open" "war3.exe" (Errno 2)) [2; 13] = Ok true
  /\ IsSysCallError (AsyncErrorPtr "Run[NextPacket]" nil) [2; 13] = Ok false.
Proof.
  split.
  - apply (proj1 (IsSysCallError_exactly _ _)). exists 2.
    split; [reflexivity | left; reflexivity].
  - apply (proj2 (proj2 (IsSysCallError_exactly _ _))). reflexivity.
Defined.

(** X4.  A websocket close error is classified as a closed connection
    whatever its code, so the two close codes that count as refused, 1015
    and 1010, are classified both as refused and as closed. *)
Theorem websocket_close_is_closed_even_when_refused
        (lib : GoLib) (err : error) (Code : Z) (Text : string) :
  UnnestError err = Ok (CloseErrorPtr Code Text) ->
  IsConnClosedError lib err = Ok true
  /\ (IsConnRefusedError lib err = Ok true <-> Code = 1015 \/ Code = 1010).
Proof.
  intros U.
  destruct (classified_by_innermost_cause_aux lib err _ U) as [E1 E2].
  rewrite E1, E2, (IsConnRefusedError_leaf lib (CloseErrorPtr Code Text) eq_refl).
  split.
  - apply (IsConnClosedError_leaf lib (CloseErrorPtr Code Text) eq_refl).
    do 4 right. exists Code, Text. reflexivity.
  - split.
    + intros H. apply Ok_inj, existsb_Zeqb_In in H.
      destruct H as [H|[H|[]]]; auto.
    + intros H. f_equal. apply existsb_Zeqb_In.
      destruct H as [->| ->]; [left|right; left]; reflexivity.
Qed.

Lemma websocket_close_is_closed_even_when_refused_witness :
  IsConnClosedError Linux.lib
    (AsyncErrorPtr "Run[NextPacket]" (CloseErrorPtr 1015 "tls handshake")) = Ok true
  /\ IsConnRefusedError Linux.lib
       (AsyncErrorPtr "Run[NextPacket]" (CloseErrorPtr 1015 "tls handshake")) = Ok true.
Proof.
  destruct (websocket_close_is_closed_even_when_refused Linux.lib
              (AsyncErrorPtr "Run[NextPacket]" (CloseErrorPtr 1015 "tls handshake"))
              1015 "tls handshake" eq_refl) as [Hc Hr].
  split; [exact Hc | apply Hr; left; reflexivity].
Defined.

(** X5.  [IsTimeoutError] asks the error itself first: if it has a
    [Timeout()] method the answer is what that method reports; only when it
    has none is the unnested cause asked; when neither has the method, or
    the error is nil, the answer is false. *)
Theorem IsTimeoutError_asks_method_first (lib : GoLib) (err : error) :
  IsTimeoutError lib err =
  if is_nil err then Ok false
  else match method_Timeout lib err with
       | Some r => r
       | None =>
           rbind (UnnestError err) (fun u =>
             match method_Timeout lib u with
             | Some r => r
             | None => Ok false
             end)
       end.
Proof. apply IsTimeoutError_unfold. Qed.

(** X6.  When neither the error nor its innermost cause has a
    [Temporary()] method, [IsTemporaryError] is the timeout classification:
    such an error is temporary exactly when it is a timeout. *)
Theorem IsTemporaryError_is_timeout_without_method
        (lib : GoLib) (err u : error) :
  UnnestError err = Ok u ->
  method_Temporary lib err = None ->
  method_Temporary lib u = None ->
  IsTemporaryError lib err = IsTimeoutError lib err.
Proof.
  intros U M1 M2. rewrite IsTemporaryError_unfold, M1, U. cbn [rbind].
  rewrite M2. destruct err; try reflexivity.
Qed.

Lemma IsTemporaryError_is_timeout_without_method_witness :
  IsTemporaryError Linux.lib
    (PathErrorPtr "read" "replay.w3g" (Other "i/o timeout" None (Some true)))
  = Ok true.
Proof.
  rewrite (IsTemporaryError_is_timeout_without_method Linux.lib _
             (Other "i/o timeout" None (Some true)));
    reflexivity.
Defined.

(** X7.  [IsUseClosedNetworkError] compares the message of the error it is
    given and does not unwrap: the message of an [AsyncError] always has a
    colon after its source, so on an [AsyncError] the answer is never true,
    also when the wrapped error is the closed-connection error that
    [IsConnClosedError] recognizes through the wrapper. *)
Theorem IsUseClosedNetworkError_does_not_unwrap
        (lib : GoLib) (Src : string) (e : error) :
  IsUseClosedNetworkError lib (AsyncErrorPtr Src e) <> Ok true
  /\ (forall s, Error lib (AsyncErrorPtr Src e) = Ok s ->
                IsUseClosedNetworkError lib (AsyncErrorPtr Src e) = Ok false)
  /\ IsConnClosedError lib
       (AsyncErrorPtr Src (Other "use of closed network connection" None None))
     = Ok true.
Proof.
  assert (K : forall s, Error lib (AsyncErrorPtr Src e) = Ok s ->
                        String.eqb s "use of closed network connection" = false).
  { intros s H. apply AsyncError_Error_has_colon in H.
    destruct (String.eqb s "use of closed network connection") eqn:E; [|reflexivity].
    apply String.eqb_eq in E. subst s. discriminate H. }
  unfold IsUseClosedNetworkError. cbn [is_nil].
  destruct (Error lib (AsyncErrorPtr Src e)) as [s|] eqn:E; cbn [rbind].
  - rewrite (K s eq_refl). repeat split; try discriminate; reflexivity.
  - repeat split; try discriminate; reflexivity.
Qed.

Lemma IsUseClosedNetworkError_does_not_unwrap_witness :
  IsUseClosedNetworkError Linux.lib
    (AsyncErrorPtr "Run[NextPacket]" (Other "use of closed network connection" None None))
  = Ok false.
Proof.
  apply (proj1 (proj2 (IsUseClosedNetworkError_does_not_unwrap Linux.lib
                         "Run[NextPacket]"
                         (Other "use of closed network connection" None None)))
               "Run[NextPacket]:use of closed network connection").
  reflexivity.
Defined.

(** X8.  An error whose innermost cause is nil, such as an [AsyncError]
    with no [Err], is classified as neither closed nor refused; and an
    [AsyncError] around nil is neither temporary nor a timeout. *)
Theorem nil_cause_is_unclassified (lib : GoLib) (err : error) :
  UnnestError err = Ok nil ->
  IsConnClosedError lib err = Ok false
  /\ IsConnRefusedError lib err = Ok false
  /\ forall Src, IsTemporaryError lib (AsyncErrorPtr Src nil) = Ok false
                 /\ IsTimeoutError lib (AsyncErrorPtr Src nil) = Ok false.
Proof.
  intros U.
  destruct (classified_by_innermost_cause_aux lib err _ U) as [E1 E2].
  rewrite E1, E2. repeat split; reflexivity.
Qed.

Lemma nil_cause_is_unclassified_witness :
  IsConnClosedError Linux.lib (OpErrorPtr "read" "udp" (AsyncErrorPtr "Run" nil))
  = Ok false.
Proof.
  apply (nil_cause_is_unclassified Linux.lib). reflexivity.
Defined.

(** * Further properties of the connection handles *)

Section Yields.

Context {T : Types}.

Lemma yields_ret {A} (P : A -> Prop) (a : A) : P a -> yields (T:=T) P (ret a).
Proof. intros H w a' w' E. injection E as <- _. exact H. Qed.

Lemma yields_panic {A} (P : A -> Prop) : yields (T:=T) P panic.
Proof. intros w a w' E. discriminate E. Qed.

Lemma yields_out_of_fuel {A} (P : A -> Prop) : yields (T:=T) P out_of_fuel.
Proof. intros w a w' E. discriminate E. Qed.

Lemma yields_bind {A B} (Q : A -> Prop) (P : B -> Prop) (m : M T A) (f : A -> M T B) :
  yields Q m -> (forall a, Q a -> yields P (f a)) -> yields P (bind m f).
Proof.
  intros Hm Hf w b w'. unfold bind. destruct (m w) as [a w1| |] eqn:E;
    try discriminate. intros H. exact (Hf a (Hm _ _ _ E) _ _ _ H).
Qed.

Lemma yields_any {A} (m : M T A) : yields (fun _ => True) m.
Proof. intros w a w' _. exact I. Qed.

End Yields.

(** Decomposes a goal [yields P m] along the structure of [m]. *)
Ltac yielding :=
  repeat first
    [ apply yields_panic | apply yields_out_of_fuel
    | apply yields_ret
    | apply (yields_bind (fun _ => True)); [apply yields_any | intros ? _]
    | match goal with
      | |- yields _ (match ?x with _ => _ end) => destruct x eqn:?
      | |- yields _ (if ?x then _ else _) => destruct x eqn:?
      end ].

Section Frames.

Context {T : Types} (env : Env T).

Lemma W3GSPacketConn_Send_frame (c : W3GSPacketConn.t) addr pkt :
  yields (fun r : Z * error * W3GSPacketConn.t =>
            W3GSPacketConn.conn (snd r) = W3GSPacketConn.conn c
            /\ W3GSPacketConn.bbuf (snd r) = W3GSPacketConn.bbuf c
            /\ W3GSPacketConn.rbuf (snd r) = W3GSPacketConn.rbuf c)
         (W3GSPacketConn.Send env c addr pkt).
Proof. unfold W3GSPacketConn.Send. yielding; cbn; auto. Qed.

Lemma W3GSConn_Send_frame (c : W3GSConn.t) pkt :
  yields (fun r : Z * error * W3GSConn.t =>
            W3GSConn.conn (snd r) = W3GSConn.conn c
            /\ W3GSConn.rbuf (snd r) = W3GSConn.rbuf c)
         (W3GSConn.Send env c pkt).
Proof. unfold W3GSConn.Send. yielding; cbn; auto. Qed.

Lemma BNCSConn_Send_frame (c : BNCSConn.t) pkt :
  yields (fun r : Z * error * BNCSConn.t =>
            BNCSConn.conn (snd r) = BNCSConn.conn c
            /\ BNCSConn.rbuf (snd r) = BNCSConn.rbuf c
            /\ BNCSConn.lnxt (snd r) = BNCSConn.lnxt c)
         (BNCSConn.Send env c pkt).
Proof. unfold BNCSConn.Send. yielding; cbn; auto. Qed.

Lemma CAPIConn_Send_frame (c : CAPIConn.t) pkt :
  yields (fun r : error * CAPIConn.t => snd r = c) (CAPIConn.Send env c pkt).
Proof. unfold CAPIConn.Send. yielding; cbn; auto. Qed.

Lemma W3GSPacketConn_NextPacket_frame (c : W3GSPacketConn.t) timeout :
  yields (fun r : option (w3gs_Packet T) * option net_Addr * error * W3GSPacketConn.t =>
            W3GSPacketConn.conn (snd r) = W3GSPacketConn.conn c
            /\ W3GSPacketConn.sbuf (snd r) = W3GSPacketConn.sbuf c)
         (W3GSPacketConn.NextPacket env c timeout).
Proof. unfold W3GSPacketConn.NextPacket. yielding; cbn; auto. Qed.

Lemma W3GSConn_NextPacket_frame (c : W3GSConn.t) timeout :
  yields (fun r : option (w3gs_Packet T) * error * W3GSConn.t =>
            W3GSConn.conn (snd r) = W3GSConn.conn c
            /\ W3GSConn.sbuf (snd r) = W3GSConn.sbuf c)
         (W3GSConn.NextPacket env c timeout).
Proof. unfold W3GSConn.NextPacket. yielding; cbn; auto. Qed.

Lemma BNCSConn_NextClientPacket_frame (c : BNCSConn.t) timeout :
  yields (fun r : option (bncs_Packet T) * error * BNCSConn.t =>
            BNCSConn.conn (snd r) = BNCSConn.conn c
            /\ BNCSConn.sbuf (snd r) = BNCSConn.sbuf c
            /\ BNCSConn.lnxt (snd r) = BNCSConn.lnxt c)
         (BNCSConn.NextClientPacket env c timeout).
Proof. unfold BNCSConn.NextClientPacket. yielding; cbn; auto. Qed.

Lemma BNCSConn_NextServerPacket_frame (c : BNCSConn.t) timeout :
  yields (fun r : option (bncs_Packet T) * error * BNCSConn.t =>
            BNCSConn.conn (snd r) = BNCSConn.conn c
            /\ BNCSConn.sbuf (snd r) = BNCSConn.sbuf c
            /\ BNCSConn.lnxt (snd r) = BNCSConn.lnxt c)
         (BNCSConn.NextServerPacket env c timeout).
Proof. unfold BNCSConn.NextServerPacket. yielding; cbn; auto. Qed.

Lemma CAPIConn_NextPacket_frame (c : CAPIConn.t) timeout :
  yields (fun r : option (capi_Packet T) * error * CAPIConn.t => snd r = c)
         (CAPIConn.NextPacket env c timeout).
Proof. unfold CAPIConn.NextPacket. yielding; cbn; auto. Qed.

Lemma W3GSPacketConn_Send_fired c addr pkt :
  keeps_fired (W3GSPacketConn.Send env c addr pkt).
Proof. unfold W3GSPacketConn.Send. keeps. Qed.

Lemma W3GSConn_Send_fired c pkt : keeps_fired (W3GSConn.Send env c pkt).
Proof. unfold W3GSConn.Send. keeps. Qed.

Lemma BNCSConn_Send_fired c pkt : keeps_fired (BNCSConn.Send env c pkt).
Proof. unfold BNCSConn.Send. keeps. Qed.

Lemma CAPIConn_Send_fired c pkt : keeps_fired (CAPIConn.Send env c pkt).
Proof. unfold CAPIConn.Send. keeps. Qed.

End Frames.

(** A run loop keeps what every receive keeps: [frame] is the frame lemma of
    the loop's receive. *)
Ltac loop_keeps frame IH :=
  eapply yields_bind;
  [ apply frame
  | intros r Hr; cbn beta in Hr;
    repeat match goal with p : (_ * _)%type |- _ => destruct p end;
    cbn [fst snd] in Hr;
    yielding;
    try (apply IH; intuition congruence);
    cbn [fst snd]; intuition congruence ].

Section RunFrames.

Context {T : Types} (env : Env T).

Lemma W3GSPacketConn_Run_loop_frame timeout k s fuel :
  forall c : W3GSPacketConn.t,
    W3GSPacketConn.conn c = k -> W3GSPacketConn.sbuf c = s ->
    yields (fun r : error * W3GSPacketConn.t =>
              W3GSPacketConn.conn (snd r) = k /\ W3GSPacketConn.sbuf (snd r) = s)
           (W3GSPacketConn.Run_loop env fuel c timeout).
Proof.
  induction fuel as [|fuel IH]; intros c Hk Hs; cbn [W3GSPacketConn.Run_loop].
  - apply yields_out_of_fuel.
  - loop_keeps (W3GSPacketConn_NextPacket_frame env) IH.
Qed.

Lemma W3GSConn_Run_loop_frame timeout k s fuel :
  forall c : W3GSConn.t,
    W3GSConn.conn c = k -> W3GSConn.sbuf c = s ->
    yields (fun r : error * W3GSConn.t =>
              W3GSConn.conn (snd r) = k /\ W3GSConn.sbuf (snd r) = s)
           (W3GSConn.Run_loop env fuel c timeout).
Proof.
  induction fuel as [|fuel IH]; intros c Hk Hs; cbn [W3GSConn.Run_loop].
  - apply yields_out_of_fuel.
  - loop_keeps (W3GSConn_NextPacket_frame env) IH.
Qed.

Lemma BNCSConn_RunServer_loop_frame timeout k s l fuel :
  forall c : BNCSConn.t,
    BNCSConn.conn c = k -> BNCSConn.sbuf c = s -> BNCSConn.lnxt c = l ->
    yields (fun r : error * BNCSConn.t =>
              BNCSConn.conn (snd r) = k /\ BNCSConn.sbuf (snd r) = s
              /\ BNCSConn.lnxt (snd r) = l)
           (BNCSConn.RunServer_loop env fuel c timeout).
Proof.
  induction fuel as [|fuel IH]; intros c Hk Hs Hl; cbn [BNCSConn.RunServer_loop].
  - apply yields_out_of_fuel.
  - loop_keeps (BNCSConn_NextClientPacket_frame env) IH.
Qed.

Lemma BNCSConn_RunClient_loop_frame timeout k s l fuel :
  forall c : BNCSConn.t,
    BNCSConn.conn c = k -> BNCSConn.sbuf c = s -> BNCSConn.lnxt c = l ->
    yields (fun r : error * BNCSConn.t =>
              BNCSConn.conn (snd r) = k /\ BNCSConn.sbuf (snd r) = s
              /\ BNCSConn.lnxt (snd r) = l)
           (BNCSConn.RunClient_loop env fuel c timeout).
Proof.
  induction fuel as [|fuel IH]; intros c Hk Hs Hl; cbn [BNCSConn.RunClient_loop].
  - apply yields_out_of_fuel.
  - loop_keeps (BNCSConn_NextServerPacket_frame env) IH.
Qed.

Lemma CAPIConn_Run_loop_frame timeout fuel :
  forall c : CAPIConn.t,
    yields (fun r : error * CAPIConn.t => snd r = c)
           (CAPIConn.Run_loop env fuel c timeout).
Proof.
  induction fuel as [|fuel IH]; intros c; cbn [CAPIConn.Run_loop].
  - apply yields_out_of_fuel.
  - eapply yields_bind; [apply (CAPIConn_NextPacket_frame env)|].
    intros [[pkt err] c1] Hr. cbn [snd] in Hr. subst c1.
    yielding; try apply IH; reflexivity.
Qed.

End RunFrames.

(** One iteration of a run loop in hypothesis [H], with [N] the equation of
    its receive and [F] what the receive fired. *)
Ltac trace_iteration IH H F :=
  unfold bind, Fire, ret in H;
  repeat match type of H with
         | context [if ?b then _ else _] => destruct b eqn:?
         | context [match ?p with Some _ => _ | None => _ end] => destruct p eqn:?
         end;
  try discriminate H;
  [ apply IH in H; destruct H as (Rf & mid & Hf & Hm);
    split; [exact Rf|];
    eexists (_ :: mid); rewrite Hf, fired_fire_w, F, <- app_assoc;
    split; [reflexivity|];
    constructor; [left; eexists; split; [eassumption | reflexivity] | exact Hm]
  | injection H as <- <- <-; split; [assumption|];
    exists []; rewrite fired_fire_w, F; split; [reflexivity | constructor]
  | .. ].

Section RunTraces.

Context {T : Types} (env : Env T).

Lemma W3GSPacketConn_Run_loop_trace timeout fuel :
  forall c w e c' w',
    W3GSPacketConn.Run_loop env fuel c timeout w = Done (e, c') w' ->
    w3gs_recoverable e = false
    /\ exists mid,
         fired w' = (fired w ++ mid ++ [[EvRunStop]])%list
         /\ Forall (iteration_firing w3gs_recoverable "Run[NextPacket]"
                      udp_packet_firing) mid.
Proof.
  induction fuel as [|fuel IH]; intros c w e c' w' H; [discriminate H|].
  cbn [W3GSPacketConn.Run_loop] in H. unfold bind at 1 in H.
  destruct (W3GSPacketConn.NextPacket env c timeout w)
    as [[[[pkt addr] err] c1] w1| |] eqn:N; try discriminate H.
  pose proof (W3GSPacketConn_NextPacket_fired env _ _ _ _ _ N) as F.
  trace_iteration IH H F.
  apply IH in H. destruct H as (Rf & mid & Hf & Hm). split; [exact Rf|].
  eexists (_ :: mid). rewrite Hf, fired_fire_w, F, <- app_assoc.
  split; [reflexivity|].
  constructor; [right; do 2 eexists; reflexivity | exact Hm].
Qed.

Lemma W3GSConn_Run_loop_trace timeout fuel :
  forall c w e c' w',
    W3GSConn.Run_loop env fuel c timeout w = Done (e, c') w' ->
    w3gs_recoverable e = false
    /\ exists mid,
         fired w' = (fired w ++ mid ++ [[EvRunStop]])%list
         /\ Forall (iteration_firing w3gs_recoverable "Run[NextPacket]"
                      w3gs_packet_firing) mid.
Proof.
  induction fuel as [|fuel IH]; intros c w e c' w' H; [discriminate H|].
  cbn [W3GSConn.Run_loop] in H. unfold bind at 1 in H.
  destruct (W3GSConn.NextPacket env c timeout w)
    as [[[pkt err] c1] w1| |] eqn:N; try discriminate H.
  pose proof (W3GSConn_NextPacket_fired env _ _ _ _ _ N) as F.
  trace_iteration IH H F.
  apply IH in H. destruct H as (Rf & mid & Hf & Hm). split; [exact Rf|].
  eexists (_ :: mid). rewrite Hf, fired_fire_w, F, <- app_assoc.
  split; [reflexivity|].
  constructor; [right; eexists; reflexivity | exact Hm].
Qed.

Lemma BNCSConn_RunServer_loop_trace timeout fuel :
  forall c w e c' w',
    BNCSConn.RunServer_loop env fuel c timeout w = Done (e, c') w' ->
    bncs_recoverable e = false
    /\ exists mid,
         fired w' = (fired w ++ mid ++ [[EvRunStop]])%list
         /\ Forall (iteration_firing bncs_recoverable "RunServer[NextPacket]"
                      bncs_packet_firing) mid.
Proof.
  induction fuel as [|fuel IH]; intros c w e c' w' H; [discriminate H|].
  cbn [BNCSConn.RunServer_loop] in H. unfold bind at 1 in H.
  destruct (BNCSConn.NextClientPacket env c timeout w)
    as [[[pkt err] c1] w1| |] eqn:N; try discriminate H.
  pose proof (BNCSConn_NextClientPacket_fired env _ _ _ _ _ N) as F.
  trace_iteration IH H F.
  apply IH in H. destruct H as (Rf & mid & Hf & Hm). split; [exact Rf|].
  eexists (_ :: mid). rewrite Hf, fired_fire_w, F, <- app_assoc.
  split; [reflexivity|].
  constructor; [right; eexists; reflexivity | exact Hm].
Qed.

Lemma BNCSConn_RunClient_loop_trace timeout fuel :
  forall c w e c' w',
    BNCSConn.RunClient_loop env fuel c timeout w = Done (e, c') w' ->
    bncs_recoverable e = false
    /\ exists mid,
         fired w' = (fired w ++ mid ++ [[EvRunStop]])%list
         /\ Forall (iteration_firing bncs_recoverable "RunClient[NextPacket]"
                      bncs_packet_firing) mid.
Proof.
  induction fuel as [|fuel IH]; intros c w e c' w' H; [discriminate H|].
  cbn [BNCSConn.RunClient_loop] in H. unfold bind at 1 in H.
  destruct (BNCSConn.NextServerPacket env c timeout w)
    as [[[pkt err] c1] w1| |] eqn:N; try discriminate H.
  pose proof (BNCSConn_NextServerPacket_fired env _ _ _ _ _ N) as F.
  trace_iteration IH H F.
  apply IH in H. destruct H as (Rf & mid & Hf & Hm). split; [exact Rf|].
  eexists (_ :: mid). rewrite Hf, fired_fire_w, F, <- app_assoc.
  split; [reflexivity|].
  constructor; [right; eexists; reflexivity | exact Hm].
Qed.

Lemma CAPIConn_Run_loop_trace timeout fuel :
  forall c w e c' w',
    CAPIConn.Run_loop env fuel c timeout w = Done (e, c') w' ->
    capi_recoverable e = false
    /\ exists mid,
         fired w' = (fired w ++ mid ++ [[EvRunStop]])%list
         /\ Forall (iteration_firing capi_recoverable "Run[NextPacket]"
                      (capi_packet_firing env)) mid.
Proof.
  induction fuel as [|fuel IH]; intros c w e c' w' H; [discriminate H|].
  cbn [CAPIConn.Run_loop] in H. unfold bind at 1 in H.
  destruct (CAPIConn.NextPacket env c timeout w)
    as [[[pkt err] c1] w1| |] eqn:N; try discriminate H.
  pose proof (CAPIConn_NextPacket_fired env _ _ _ _ _ N) as F.
  trace_iteration IH H F.
  unfold panic in H.
  apply IH in H. destruct H as (Rf & mid & Hf & Hm). split; [exact Rf|].
  eexists (_ :: _ :: mid). rewrite Hf, !fired_fire_w, F, <- !app_assoc.
  split; [reflexivity|].
  constructor; [right; eexists; left; reflexivity|].
  constructor; [right; eexists; right; reflexivity | exact Hm].
Qed.

End RunTraces.

(** * Further documented behaviour of the connection handles *)

Section RunTraceLaws.

Context {T : Types} (env : Env T).

Lemma fired_after_start (w : World T) (mid : list (list EventArg)) (l : list (list EventArg)) :
  l = (fired (fire_w env [EvRunStart] w) ++ mid ++ [[EvRunStop]])%list ->
  l = (fired w ++ [[EvRunStart]] ++ mid ++ [[EvRunStop]])%list.
Proof. intros ->. rewrite fired_fire_w, <- app_assoc. reflexivity. Qed.

End RunTraceLaws.

(** X9.  Whenever a run loop returns, what it fired is [RunStart] first and
    [RunStop] last, each once, and in between only firings of its
    iterations: [AsyncError]s that carry the loop's source tag around a
    recoverable error, and decoded packets.  The error it returns is never
    one of the recoverable ones. *)
Theorem run_loops_fire_start_iterations_stop {T : Types} (env : Env T) :
  run_trace_law (W3GSPacketConn.Run env) w3gs_recoverable "Run[NextPacket]"
    udp_packet_firing
  /\ run_trace_law (W3GSConn.Run env) w3gs_recoverable "Run[NextPacket]"
       w3gs_packet_firing
  /\ run_trace_law (BNCSConn.RunServer env) bncs_recoverable "RunServer[NextPacket]"
       bncs_packet_firing
  /\ run_trace_law (BNCSConn.RunClient env) bncs_recoverable "RunClient[NextPacket]"
       bncs_packet_firing
  /\ run_trace_law (CAPIConn.Run env) capi_recoverable "Run[NextPacket]"
       (capi_packet_firing env).
Proof.
  repeat apply conj; intros fuel c timeout w e c' w' H.
  - apply W3GSPacketConn_Run_loop_trace in H. destruct H as (R & mid & Hf & Hm).
    split; [exact R|]. exists mid. split; [now apply (fired_after_start env) | exact Hm].
  - apply W3GSConn_Run_loop_trace in H. destruct H as (R & mid & Hf & Hm).
    split; [exact R|]. exists mid. split; [now apply (fired_after_start env) | exact Hm].
  - apply BNCSConn_RunServer_loop_trace in H. destruct H as (R & mid & Hf & Hm).
    split; [exact R|]. exists mid. split; [now apply (fired_after_start env) | exact Hm].
  - apply BNCSConn_RunClient_loop_trace in H. destruct H as (R & mid & Hf & Hm).
    split; [exact R|]. exists mid. split; [now apply (fired_after_start env) | exact Hm].
  - apply CAPIConn_Run_loop_trace in H. destruct H as (R & mid & Hf & Hm).
    split; [exact R|]. exists mid. split; [now apply (fired_after_start env) | exact Hm].
Qed.

Lemma run_loops_fire_start_iterations_stop_witness :
  exists c w mid,
    W3GSConn.Run Sim.env 3 (Sim.tcp (Some 1%nat)) 0 (Sim.world 0 Sim.w3gs_script)
    = Done (Sim.closed_read, c) w
    /\ fired w = ([[EvRunStart]] ++ mid ++ [[EvRunStop]])%list
    /\ List.length mid = 2%nat.
Proof.
  destruct (run_loops_fire_start_iterations_stop Sim.env) as (_ & Htcp & _).
  edestruct (Htcp 3%nat (Sim.tcp (Some 1%nat)) 0 (Sim.world 0 Sim.w3gs_script))
    as (_ & mid & Hf & _); [lazy; reflexivity|].
  do 2 eexists. exists mid. split; [lazy; reflexivity|]. split; [exact Hf|].
  apply (f_equal (@List.length _)) in Hf.
  cbn [fired Sim.world] in Hf. rewrite !List.length_app in Hf.
  cbn [List.length] in Hf. lia.
Defined.

(** X10.  Receiving never touches the sending side of a handle: every
    [NextPacket] variant and every run loop returns the handle with the
    transport reference and the send buffer it had, and for the BNCS handle
    also with the time of the next rate-limited send. *)
Theorem receiving_leaves_the_send_side {T : Types} (env : Env T) :
  (forall (c : W3GSPacketConn.t) timeout fuel,
      yields (fun r => W3GSPacketConn.conn (snd r) = W3GSPacketConn.conn c
                       /\ W3GSPacketConn.sbuf (snd r) = W3GSPacketConn.sbuf c)
             (W3GSPacketConn.NextPacket env c timeout)
      /\ yields (fun r => W3GSPacketConn.conn (snd r) = W3GSPacketConn.conn c
                          /\ W3GSPacketConn.sbuf (snd r) = W3GSPacketConn.sbuf c)
                (W3GSPacketConn.Run env fuel c timeout))
  /\ (forall (c : W3GSConn.t) timeout fuel,
      yields (fun r => W3GSConn.conn (snd r) = W3GSConn.conn c
                       /\ W3GSConn.sbuf (snd r) = W3GSConn.sbuf c)
             (W3GSConn.NextPacket env c timeout)
      /\ yields (fun r => W3GSConn.conn (snd r) = W3GSConn.conn c
                          /\ W3GSConn.sbuf (snd r) = W3GSConn.sbuf c)
                (W3GSConn.Run env fuel c timeout))
  /\ (forall (c : BNCSConn.t) timeout fuel,
      yields (fun r => BNCSConn.conn (snd r) = BNCSConn.conn c
                       /\ BNCSConn.sbuf (snd r) = BNCSConn.sbuf c
                       /\ BNCSConn.lnxt (snd r) = BNCSConn.lnxt c)
             (BNCSConn.NextClientPacket env c timeout)
      /\ yields (fun r => BNCSConn.conn (snd r) = BNCSConn.conn c
                          /\ BNCSConn.sbuf (snd r) = BNCSConn.sbuf c
                          /\ BNCSConn.lnxt (snd r) = BNCSConn.lnxt c)
                (BNCSConn.NextServerPacket env c timeout)
      /\ yields (fun r => BNCSConn.conn (snd r) = BNCSConn.conn c
                          /\ BNCSConn.sbuf (snd r) = BNCSConn.sbuf c
                          /\ BNCSConn.lnxt (snd r) = BNCSConn.lnxt c)
                (BNCSConn.RunServer env fuel c timeout)
      /\ yields (fun r => BNCSConn.conn (snd r) = BNCSConn.conn c
                          /\ BNCSConn.sbuf (snd r) = BNCSConn.sbuf c
                          /\ BNCSConn.lnxt (snd r) = BNCSConn.lnxt c)
                (BNCSConn.RunClient env fuel c timeout))
  /\ (forall (c : CAPIConn.t) timeout fuel,
      yields (fun r => snd r = c) (CAPIConn.NextPacket env c timeout)
      /\ yields (fun r => snd r = c) (CAPIConn.Run env fuel c timeout)).
Proof.
  repeat apply conj; intros c timeout fuel; repeat apply conj;
    try apply W3GSPacketConn_NextPacket_frame;
    try apply W3GSConn_NextPacket_frame;
    try apply BNCSConn_NextClientPacket_frame;
    try apply BNCSConn_NextServerPacket_frame;
    try apply CAPIConn_NextPacket_frame;
    (eapply yields_bind; [apply yields_any | intros ? _]).
  - now apply W3GSPacketConn_Run_loop_frame.
  - now apply W3GSConn_Run_loop_frame.
  - now apply BNCSConn_RunServer_loop_frame.
  - now apply BNCSConn_RunClient_loop_frame.
  - apply CAPIConn_Run_loop_frame.
Qed.

Lemma receiving_leaves_the_send_side_witness :
  exists e c w,
    BNCSConn.RunServer Sim.env 3 (Sim.chat (Some 1%nat) 77) 0 (Sim.world 0 Sim.bncs_script)
    = Done (e, c) w
    /\ BNCSConn.conn c = Some 1%nat /\ BNCSConn.lnxt c = 77.
Proof.
  destruct (receiving_leaves_the_send_side Sim.env) as (_ & _ & Hchat & _).
  destruct (Hchat (Sim.chat (Some 1%nat) 77) 0 3%nat) as (_ & _ & Hrun & _).
  do 3 eexists. split; [lazy; reflexivity|].
  edestruct (Hrun (Sim.world 0 Sim.bncs_script)) as (Hc & _ & Hl);
    [lazy; reflexivity|].
  split; [exact Hc | exact Hl].
Defined.

(** X11.  Sending never touches the receiving side of a handle and fires
    nothing: every [Send] returns the handle with the transport reference
    and the receive buffers it had, for the BNCS handle also with the time
    of the next rate-limited send, and leaves the record of firings as it
    was. *)
Theorem sending_leaves_the_receive_side {T : Types} (env : Env T) :
  (forall (c : W3GSPacketConn.t) addr pkt w n err c' w',
      W3GSPacketConn.Send env c addr pkt w = Done (n, err, c') w' ->
      W3GSPacketConn.conn c' = W3GSPacketConn.conn c
      /\ W3GSPacketConn.bbuf c' = W3GSPacketConn.bbuf c
      /\ W3GSPacketConn.rbuf c' = W3GSPacketConn.rbuf c
      /\ fired w' = fired w)
  /\ (forall (c : W3GSConn.t) pkt w n err c' w',
      W3GSConn.Send env c pkt w = Done (n, err, c') w' ->
      W3GSConn.conn c' = W3GSConn.conn c
      /\ W3GSConn.rbuf c' = W3GSConn.rbuf c
      /\ fired w' = fired w)
  /\ (forall (c : BNCSConn.t) pkt w n err c' w',
      BNCSConn.Send env c pkt w = Done (n, err, c') w' ->
      BNCSConn.conn c' = BNCSConn.conn c
      /\ BNCSConn.rbuf c' = BNCSConn.rbuf c
      /\ BNCSConn.lnxt c' = BNCSConn.lnxt c
      /\ fired w' = fired w)
  /\ (forall (c : CAPIConn.t) pkt w err c' w',
      CAPIConn.Send env c pkt w = Done (err, c') w' ->
      c' = c /\ fired w' = fired w).
Proof.
  repeat apply conj.
  - intros c addr pkt w n err c' w' H.
    destruct (W3GSPacketConn_Send_frame env c addr pkt _ _ _ H) as (A & B & C).
    pose proof (W3GSPacketConn_Send_fired env c addr pkt _ _ _ H). auto.
  - intros c pkt w n err c' w' H.
    destruct (W3GSConn_Send_frame env c pkt _ _ _ H) as (A & B).
    pose proof (W3GSConn_Send_fired env c pkt _ _ _ H). auto.
  - intros c pkt w n err c' w' H.
    destruct (BNCSConn_Send_frame env c pkt _ _ _ H) as (A & B & C).
    pose proof (BNCSConn_Send_fired env c pkt _ _ _ H). auto.
  - intros c pkt w err c' w' H.
    pose proof (CAPIConn_Send_frame env c pkt _ _ _ H) as A.
    pose proof (CAPIConn_Send_fired env c pkt _ _ _ H). auto.
Qed.

Lemma sending_leaves_the_receive_side_witness :
  exists n c' w',
    W3GSPacketConn.Send Sim.env (Sim.udp (Some 1%nat)) (Some W3GSBroadcastAddr)
      (Some 3%nat) (Sim.world 0 [])
    = Done (n, nil, c') w'
    /\ W3GSPacketConn.conn c' = Some 1%nat
    /\ fired w' = [].
Proof.
  destruct (sending_leaves_the_receive_side Sim.env) as (Hudp & _).
  do 3 eexists. split; [lazy; reflexivity|].
  edestruct (Hudp (Sim.udp (Some 1%nat)) (Some W3GSBroadcastAddr) (Some 3%nat)
                  (Sim.world 0 [])) as (Hc & _ & _ & Hf); [lazy; reflexivity|].
  split; [exact Hc | exact Hf].
Defined.

(** X12.  A run loop started on a handle with no transport stops in its
    first iteration: it fires [RunStart] and [RunStop], nothing else, and
    returns [io.EOF] with the handle as it was. *)
Theorem run_without_transport_stops_at_once {T : Types} (env : Env T) :
  (forall (c : W3GSPacketConn.t) fuel timeout w,
      W3GSPacketConn.conn c = None ->
      W3GSPacketConn.Run env (S fuel) c timeout w
      = Done (Sentinel io_EOF, c) (fire_all env [[EvRunStart]; [EvRunStop]] w))
  /\ (forall (c : W3GSConn.t) fuel timeout w,
      W3GSConn.conn c = None ->
      W3GSConn.Run env (S fuel) c timeout w
      = Done (Sentinel io_EOF, c) (fire_all env [[EvRunStart]; [EvRunStop]] w))
  /\ (forall (c : BNCSConn.t) fuel timeout w,
      BNCSConn.conn c = None ->
      BNCSConn.RunServer env (S fuel) c timeout w
      = Done (Sentinel io_EOF, c) (fire_all env [[EvRunStart]; [EvRunStop]] w)
      /\ BNCSConn.RunClient env (S fuel) c timeout w
         = Done (Sentinel io_EOF, c) (fire_all env [[EvRunStart]; [EvRunStop]] w))
  /\ (forall (c : CAPIConn.t) fuel timeout w,
      CAPIConn.conn c = None ->
      CAPIConn.Run env (S fuel) c timeout w
      = Done (Sentinel io_EOF, c) (fire_all env [[EvRunStart]; [EvRunStop]] w)).
Proof.
  repeat apply conj; intros c fuel timeout w H; repeat apply conj;
    unfold W3GSPacketConn.Run, W3GSConn.Run, BNCSConn.RunServer,
           BNCSConn.RunClient, CAPIConn.Run;
    cbn [W3GSPacketConn.Run_loop W3GSConn.Run_loop BNCSConn.RunServer_loop
         BNCSConn.RunClient_loop CAPIConn.Run_loop];
    unfold W3GSPacketConn.NextPacket, W3GSConn.NextPacket,
           BNCSConn.NextClientPacket, BNCSConn.NextServerPacket,
           CAPIConn.NextPacket;
    rewrite H; reflexivity.
Qed.

Lemma run_without_transport_stops_at_once_witness :
  exists w,
    CAPIConn.Run Sim.env 1 (Sim.ws None) 500 (Sim.world 0 Sim.capi_script)
    = Done (Sentinel io_EOF, Sim.ws None) w
    /\ fired w = [[EvRunStart]; [EvRunStop]]
    /\ Sim.inbox (ext w) = Sim.capi_script.
Proof.
  destruct (run_without_transport_stops_at_once Sim.env) as (_ & _ & _ & Hws).
  eexists. split; [apply Hws; reflexivity|]. split; reflexivity.
Defined.

(** X13.  The datagram [NextPacket] hands out a packet and an address only
    together with a nil error: whenever it returns an error, the packet and
    the address it returns are nil. *)
Theorem W3GSPacketConn_NextPacket_error_without_packet {T : Types} (env : Env T)
        (c : W3GSPacketConn.t) timeout w pkt addr err c' w' :
  W3GSPacketConn.NextPacket env c timeout w = Done (pkt, addr, err, c') w' ->
  err <> nil ->
  pkt = None /\ addr = None.
Proof.
  intros H N. revert N.
  change ((fun r : option (w3gs_Packet T) * option net_Addr * error * W3GSPacketConn.t =>
             snd (fst r) <> nil ->
             fst (fst (fst r)) = None /\ snd (fst (fst r)) = None)
            (pkt, addr, err, c')).
  revert H. generalize (pkt, addr, err, c'). intros r H. revert w r w' H.
  change (yields (fun r : option (w3gs_Packet T) * option net_Addr * error * W3GSPacketConn.t =>
                    snd (fst r) <> nil ->
                    fst (fst (fst r)) = None /\ snd (fst (fst r)) = None)
                 (W3GSPacketConn.NextPacket env c timeout)).
  unfold W3GSPacketConn.NextPacket. yielding; cbn [fst snd]; auto.
  intros N. exfalso.
  match goal with
  | E : negb (is_nil ?e) = false |- _ =>
      apply negb_false_iff in E; destruct e; try discriminate E; now apply N
  end.
Qed.

Lemma W3GSPacketConn_NextPacket_error_without_packet_witness :
  exists pkt addr e c' w',
    W3GSPacketConn.NextPacket Sim.env (Sim.udp (Some 1%nat)) 0
      (Sim.world 0 [Sim.Chunk [Byte.x01]])
    = Done (pkt, addr, e, c') w'
    /\ e = Sentinel w3gs_ErrInvalidPacketSize /\ pkt = None /\ addr = None.
Proof.
  do 5 eexists. split; [lazy; reflexivity|]. split; [reflexivity|].
  eapply (W3GSPacketConn_NextPacket_error_without_packet Sim.env
            (Sim.udp (Some 1%nat)) 0 (Sim.world 0 [Sim.Chunk [Byte.x01]]));
    [lazy; reflexivity | discriminate].
Defined.

(** X14.  The datagram [NextPacket] slices its 2048-byte read buffer by the
    size that [ReadFrom] reports: after a read without error it panics
    exactly when that size is negative or above 2048, and otherwise hands
    the first [size] bytes to the deserializer. *)
Theorem W3GSPacketConn_NextPacket_slice_bounds {T : Types} (env : Env T)
        (c : W3GSPacketConn.t) k w size addr b x :
  W3GSPacketConn.conn c = Some k ->
  PacketConn_ReadFrom env k (W3GSPacketConn.bbuf c) (ext w) = ((size, addr, nil, b), x) ->
  (W3GSPacketConn.NextPacket env c 0 w = Panic <-> size < 0 \/ 2048 < size)
  /\ (0 <= size <= 2048 ->
      forall pkt n err r x',
        w3gs_DeserializePacketWithBuffer env
          (ReaderBuffer (firstn (Z.to_nat size) b)) (W3GSPacketConn.rbuf c) x
        = ((pkt, n, err, r), x') ->
        exists pkt' addr',
          W3GSPacketConn.NextPacket env c 0 w
          = Done (pkt', addr', err,
                  W3GSPacketConn.set_rbuf (W3GSPacketConn.set_bbuf c b) r)
                 {| ext := x'; fired := fired w |}).
Proof.
  intros Hc HR. unfold W3GSPacketConn.NextPacket. rewrite Hc.
  cbn [Z.eqb]. unfold bind, ret, call, panic. cbn [is_nil negb ext fired].
  rewrite HR. cbn [is_nil negb W3GSPacketConn.bbuf W3GSPacketConn.set_bbuf
                   W3GSPacketConn.rbuf ext fired].
  destruct ((size <? 0) || (2048 <? size)) eqn:B.
  - apply orb_true_iff in B. rewrite !Z.ltb_lt in B. split.
    + split; auto.
    + intros R. exfalso. lia.
  - apply orb_false_iff in B. rewrite !Z.ltb_ge in B. split.
    + split; [|lia]. cbn [ext fired].
      match goal with
      | |- context [w3gs_DeserializePacketWithBuffer env ?rd ?rb x] =>
          destruct (w3gs_DeserializePacketWithBuffer env rd rb x) as [[[[? ?] e] ?] ?]
      end.
      destruct (negb (is_nil e)); discriminate.
    + intros _ pkt n err r x' HD. cbn [ext fired]. rewrite HD.
      destruct (negb (is_nil err)); do 2 eexists; reflexivity.
Qed.

Lemma W3GSPacketConn_NextPacket_slice_bounds_witness :
  W3GSPacketConn.NextPacket Sim.env (Sim.udp (Some 1%nat)) 0
    (Sim.world 0 [Sim.Chunk (repeat Byte.x00 2049)]) = Panic.
Proof.
  apply (proj1 (W3GSPacketConn_NextPacket_slice_bounds Sim.env
                  (Sim.udp (Some 1%nat)) 1%nat
                  (Sim.world 0 [Sim.Chunk (repeat Byte.x00 2049)])
                  2049 (Some (UDPAddr [10; 0; 0; 2] 6112))
                  (repeat Byte.x00 2049 ++ skipn 2049 (repeat Byte.x00 2048))%list
                  (Sim.Build_state 0 [] [] [])
                  eq_refl eq_refl)).
  right. lia.
Defined.

(** X15.  When a timeout is given and setting the read deadline fails, every
    [NextPacket] variant returns that error at once: nothing is read, no
    packet is returned and the handle is as it was. *)
Theorem deadline_failure_stops_the_receive {T : Types} (env : Env T) :
  (forall (c : W3GSPacketConn.t) k timeout w now x1 err x2,
      W3GSPacketConn.conn c = Some k -> timeout <> 0 ->
      time_Now env (ext w) = (now, x1) ->
      PacketConn_SetReadDeadline env k (now + timeout) x1 = (err, x2) ->
      err <> nil ->
      W3GSPacketConn.NextPacket env c timeout w
      = Done (None, None, err, c) {| ext := x2; fired := fired w |})
  /\ (forall (c : W3GSConn.t) k timeout w now x1 err x2,
      W3GSConn.conn c = Some k -> timeout <> 0 ->
      time_Now env (ext w) = (now, x1) ->
      Conn_SetReadDeadline env k (now + timeout) x1 = (err, x2) ->
      err <> nil ->
      W3GSConn.NextPacket env c timeout w
      = Done (None, err, c) {| ext := x2; fired := fired w |})
  /\ (forall (c : BNCSConn.t) k timeout w now x1 err x2,
      BNCSConn.conn c = Some k -> timeout <> 0 ->
      time_Now env (ext w) = (now, x1) ->
      Conn_SetReadDeadline env k (now + timeout) x1 = (err, x2) ->
      err <> nil ->
      BNCSConn.NextClientPacket env c timeout w
      = Done (None, err, c) {| ext := x2; fired := fired w |}
      /\ BNCSConn.NextServerPacket env c timeout w
         = Done (None, err, c) {| ext := x2; fired := fired w |})
  /\ (forall (c : CAPIConn.t) k timeout w now x1 err x2,
      CAPIConn.conn c = Some k -> timeout <> 0 ->
      time_Now env (ext w) = (now, x1) ->
      WSConn_SetReadDeadline env k (now + timeout) x1 = (err, x2) ->
      err <> nil ->
      CAPIConn.NextPacket env c timeout w
      = Done (None, err, c) {| ext := x2; fired := fired w |}).
Proof.
  repeat apply conj; intros c k timeout w now x1 err x2 Hc Ht HN HD He;
    repeat apply conj;
    unfold W3GSPacketConn.NextPacket, W3GSConn.NextPacket,
           BNCSConn.NextClientPacket, BNCSConn.NextServerPacket,
           CAPIConn.NextPacket;
    rewrite Hc; apply Z.eqb_neq in Ht; rewrite Ht;
    unfold bind, call, ret, Time_Add; rewrite HN; cbn [ext fired];
    rewrite HD, (not_nil_is_nil _ He); reflexivity.
Qed.

Lemma deadline_failure_stops_the_receive_witness :
  W3GSConn.NextPacket SimClosed.env (Sim.tcp (Some 1%nat)) 1000
    (SimClosed.closed_world 0 1 Sim.w3gs_script)
  = Done (None, SimClosed.deadline_error, Sim.tcp (Some 1%nat))
         (SimClosed.closed_world 0 1 Sim.w3gs_script).
Proof.
  destruct (deadline_failure_stops_the_receive SimClosed.env) as (_ & Htcp & _).
  apply (Htcp (Sim.tcp (Some 1%nat)) 1%nat 1000
              (SimClosed.closed_world 0 1 Sim.w3gs_script) 0
              (ext (SimClosed.closed_world 0 1 Sim.w3gs_script))
              SimClosed.deadline_error
              (ext (SimClosed.closed_world 0 1 Sim.w3gs_script)));
    try reflexivity; discriminate.
Defined.

(** X16.  The datagram [Send] truncates the send buffer before it
    serializes: with a transport attached, what is written, what is
    returned and the buffer left behind do not depend on what the buffer
    held before the call. *)
Theorem W3GSPacketConn_Send_ignores_stale_buffer {T : Types} (env : Env T)
        (c : W3GSPacketConn.t) (stale : bytes) addr pkt w :
  W3GSPacketConn.conn c <> None ->
  W3GSPacketConn.Send env (W3GSPacketConn.set_sbuf c stale) addr pkt w
  = W3GSPacketConn.Send env c addr pkt w.
Proof.
  intros H. unfold W3GSPacketConn.Send.
  cbn [W3GSPacketConn.conn W3GSPacketConn.set_sbuf].
  destruct (W3GSPacketConn.conn c) eqn:E; [reflexivity | now elim H].
Qed.

Lemma W3GSPacketConn_Send_ignores_stale_buffer_witness :
  W3GSPacketConn.Send Sim.env
    (W3GSPacketConn.set_sbuf (Sim.udp (Some 1%nat)) [Byte.xde; Byte.xad])
    None (Some 2%nat) (Sim.world 0 [])
  = W3GSPacketConn.Send Sim.env (Sim.udp (Some 1%nat)) None (Some 2%nat) (Sim.world 0 []).
Proof.
  apply (W3GSPacketConn_Send_ignores_stale_buffer Sim.env). discriminate.
Defined.

(** X17.  The datagram [Send] writes only what serialized: when the packet
    fails to serialize, nothing is written and zero bytes and the error are
    returned; when it serializes, exactly the bytes serialized into the
    emptied buffer go to [WriteTo] with the given address, and its count and
    error are returned. *)
Theorem W3GSPacketConn_Send_writes_the_serialization {T : Types} (env : Env T)
        (c : W3GSPacketConn.t) k addr p w e b :
  W3GSPacketConn.conn c = Some k ->
  w3gs_Packet_Serialize env p [] = (e, b) ->
  (e <> nil ->
   W3GSPacketConn.Send env c addr (Some p) w
   = Done (0, e, W3GSPacketConn.set_sbuf c b) w)
  /\ (e = nil ->
      forall n e' x,
        PacketConn_WriteTo env k b addr (ext w) = ((n, e'), x) ->
        W3GSPacketConn.Send env c addr (Some p) w
        = Done (n, e', W3GSPacketConn.set_sbuf c b) {| ext := x; fired := fired w |}).
Proof.
  intros Hc HS. unfold W3GSPacketConn.Send. rewrite Hc.
  cbn [W3GSPacketConn.sbuf W3GSPacketConn.set_sbuf]. rewrite HS. split.
  - intros He. rewrite (not_nil_is_nil _ He). reflexivity.
  - intros -> n e' x HW. cbn [is_nil]. unfold bind, call, ret.
    cbn [W3GSPacketConn.sbuf W3GSPacketConn.set_sbuf]. rewrite HW. reflexivity.
Qed.

Lemma W3GSPacketConn_Send_writes_the_serialization_witness :
  exists w',
    W3GSPacketConn.Send Sim.env (Sim.udp (Some 1%nat)) (Some W3GSBroadcastAddr)
      (Some 2%nat) (Sim.world 0 [])
    = Done (4, nil, W3GSPacketConn.set_sbuf (Sim.udp (Some 1%nat))
                      (Sim.encode Sim.w3gs_sig 2)) w'
    /\ Sim.outbox (ext w') = [Sim.encode Sim.w3gs_sig 2].
Proof.
  eexists. split.
  - apply (proj2 (W3GSPacketConn_Send_writes_the_serialization Sim.env
                    (Sim.udp (Some 1%nat)) 1%nat (Some W3GSBroadcastAddr) 2%nat
                    (Sim.world 0 []) nil (Sim.encode Sim.w3gs_sig 2)
                    eq_refl eq_refl) eq_refl).
    reflexivity.
  - reflexivity.
Defined.

(** X18.  [SetConn(nil)] detaches the handle: it closes the transport that
    was attached, and in the world it leaves every [Send] and [NextPacket]
    returns [io.EOF] without a further effect. *)
Theorem SetConn_nil_detaches {T : Types} (env : Env T) :
  (forall (c : W3GSPacketConn.t) addr pkt timeout w,
      exists c' w',
        W3GSPacketConn.SetConn env c None w = Done c' w'
        /\ ext w' = match W3GSPacketConn.conn c with
                    | Some old => snd (PacketConn_Close env old (ext w))
                    | None => ext w
                    end
        /\ W3GSPacketConn.Send env c' addr pkt w' = Done (0, Sentinel io_EOF, c') w'
        /\ W3GSPacketConn.NextPacket env c' timeout w'
           = Done (None, None, Sentinel io_EOF, c') w')
  /\ (forall (c : W3GSConn.t) pkt timeout w,
      exists c' w',
        W3GSConn.SetConn env c None w = Done c' w'
        /\ ext w' = match W3GSConn.conn c with
                    | Some old => snd (Conn_Close env old (ext w))
                    | None => ext w
                    end
        /\ W3GSConn.Send env c' pkt w' = Done (0, Sentinel io_EOF, c') w'
        /\ W3GSConn.NextPacket env c' timeout w' = Done (None, Sentinel io_EOF, c') w')
  /\ (forall (c : BNCSConn.t) pkt timeout w,
      exists c' w',
        BNCSConn.SetConn env c None w = Done c' w'
        /\ ext w' = match BNCSConn.conn c with
                    | Some old => snd (Conn_Close env old (ext w))
                    | None => ext w
                    end
        /\ BNCSConn.Send env c' pkt w' = Done (0, Sentinel io_EOF, c') w'
        /\ BNCSConn.NextClientPacket env c' timeout w'
           = Done (None, Sentinel io_EOF, c') w'
        /\ BNCSConn.NextServerPacket env c' timeout w'
           = Done (None, Sentinel io_EOF, c') w')
  /\ (forall (c : CAPIConn.t) pkt timeout w,
      exists c' w',
        CAPIConn.SetConn env c None w = Done c' w'
        /\ ext w' = match CAPIConn.conn c with
                    | Some old => snd (WSConn_Close env old (ext w))
                    | None => ext w
                    end
        /\ CAPIConn.Send env c' pkt w' = Done (Sentinel io_EOF, c') w'
        /\ CAPIConn.NextPacket env c' timeout w' = Done (None, Sentinel io_EOF, c') w').
Proof.
  repeat apply conj; intros;
    unfold W3GSPacketConn.SetConn, W3GSPacketConn.Close,
           W3GSConn.SetConn, W3GSConn.Close,
           BNCSConn.SetConn, BNCSConn.Close,
           CAPIConn.SetConn, CAPIConn.Close, bind, call, ret;
    match goal with
    | |- context [match ?k with Some _ => _ | None => _ end] => destruct k as [old|]
    end;
    try match goal with
        | |- context [let (_, _) := ?f (ext ?w0) in _] => destruct (f (ext w0)) eqn:E
        end;
    do 2 eexists; repeat split; reflexivity.
Qed.

Lemma SetConn_nil_detaches_witness :
  exists c' w',
    W3GSConn.SetConn Sim.env (Sim.tcp (Some 1%nat)) None (Sim.world 0 Sim.w3gs_script)
    = Done c' w'
    /\ Sim.closed (ext w') = [1%nat]
    /\ W3GSConn.NextPacket Sim.env c' 0 w' = Done (None, Sentinel io_EOF, c') w'
    /\ Sim.inbox (ext w') = Sim.w3gs_script.
Proof.
  destruct (SetConn_nil_detaches Sim.env) as (_ & Htcp & _).
  destruct (Htcp (Sim.tcp (Some 1%nat)) None 0 (Sim.world 0 Sim.w3gs_script))
    as (c' & w' & Hset & Hext & _ & Hnext).
  exists c', w'. split; [exact Hset|].
  split; [rewrite Hext; reflexivity|].
  split; [exact Hnext | rewrite Hext; reflexivity].
Defined.

Lemma BNCSConn_SetConn_eq {T : Types} (env : Env T)
      (c : BNCSConn.t) (k : option (net_Conn T)) (w : World T) :
  BNCSConn.SetConn env c k w
  = Done (BNCSConn.set_conn c k)
         {| ext := match BNCSConn.conn c with
                   | Some old => snd (Conn_Close env old (ext w))
                   | None => ext w
                   end;
            fired := fired w |}.
Proof.
  unfold BNCSConn.SetConn, BNCSConn.Close, bind, call, ret.
  destruct (BNCSConn.conn c) as [old|].
  - destruct (Conn_Close env old (ext w)). reflexivity.
  - destruct w. reflexivity.
Qed.

(** X19.  Successive [SetConn] calls close every transport that is
    replaced, once and in the order of replacement: after [SetConn(a)]
    and [SetConn(b)] the handle holds [b], and the closes made are that of
    the transport held at the start, if any, followed by that of [a], if
    any. *)
Theorem SetConn_twice_closes_in_order {T : Types} (env : Env T)
        (c : BNCSConn.t) (a b : option (net_Conn T)) (w : World T) :
  exists c1 w1 c2 w2,
    BNCSConn.SetConn env c a w = Done c1 w1
    /\ BNCSConn.SetConn env c1 b w1 = Done c2 w2
    /\ BNCSConn.conn c2 = b
    /\ ext w1 = match BNCSConn.conn c with
                | Some old => snd (Conn_Close env old (ext w))
                | None => ext w
                end
    /\ ext w2 = match a with
                | Some k => snd (Conn_Close env k (ext w1))
                | None => ext w1
                end
    /\ fired w2 = fired w.
Proof.
  do 4 eexists.
  split; [apply BNCSConn_SetConn_eq|].
  split; [apply BNCSConn_SetConn_eq|].
  repeat split.
Qed.

Lemma SetConn_twice_closes_in_order_witness :
  exists c2 w2,
    (exists c1 w1,
        BNCSConn.SetConn Sim.env (Sim.chat (Some 1%nat) 0) (Some 2%nat) (Sim.world 0 [])
        = Done c1 w1
        /\ BNCSConn.SetConn Sim.env c1 (Some 3%nat) w1 = Done c2 w2)
    /\ BNCSConn.conn c2 = Some 3%nat
    /\ Sim.closed (ext w2) = [1%nat; 2%nat].
Proof.
  destruct (SetConn_twice_closes_in_order Sim.env (Sim.chat (Some 1%nat) 0)
              (Some 2%nat) (Some 3%nat) (Sim.world 0 []))
    as (c1 & w1 & c2 & w2 & H1 & H2 & Hc & E1 & E2 & _).
  exists c2, w2. split; [exists c1, w1; split; assumption|].
  split; [exact Hc|]. rewrite E2, E1. reflexivity.
Defined.

Lemma Sim_clock_advances : clock_advances Sim.env.
Proof.
  split.
  - intros d x _. unfold clock_of. cbn. lia.
  - intros x. unfold clock_of. cbn. lia.
Qed.

(** X20.  [SendRL] never sends early: on a clock that sleeping advances and
    reading does not turn back, and with the pause within the range of a
    [time.Duration], the clock stands at or after the stored time of the
    next send when [SendRL] calls [Send]. *)
Theorem SendRL_never_sends_early {T : Types} (env : Env T)
        (c : BNCSConn.t) (w : World T) :
  clock_advances env ->
  BNCSConn.lnxt c - clock_of env (ext w) <= 2 ^ 63 - 1 ->
  BNCSConn.lnxt c <= clock_of env (ext (SendRL_entry env c w)).
Proof.
  intros [Hsleep Hread] Hrange. unfold SendRL_entry.
  pose proof (Hread (ext w)) as R. unfold clock_of in Hrange, R.
  destruct (time_Now env (ext w)) as [t0 x] eqn:N. cbn [fst snd] in *.
  unfold Time_Before, Time_Sub.
  destruct (t0 <? BNCSConn.lnxt c) eqn:B; cbn [ext].
  - apply Z.ltb_lt in B.
    replace (Z.max (- 2 ^ 63) (Z.min (2 ^ 63 - 1) (BNCSConn.lnxt c - t0)))
      with (BNCSConn.lnxt c - t0) by lia.
    pose proof (Hsleep (BNCSConn.lnxt c - t0) x ltac:(lia)) as S.
    fold (clock_of env x) in R. lia.
  - apply Z.ltb_ge in B. fold (clock_of env x) in R. lia.
Qed.

Lemma SendRL_never_sends_early_witness :
  1300 <= clock_of Sim.env
            (ext (SendRL_entry Sim.env (Sim.chat (Some 1%nat) 1300) (Sim.world 500 []))).
Proof.
  apply (SendRL_never_sends_early Sim.env (Sim.chat (Some 1%nat) 1300)
           (Sim.world 500 []) Sim_clock_advances).
  vm_compute. discriminate.
Defined.

(** X21.  The stored time of the next send never moves back: on such a
    clock, if the clock is not turned back while [Send] runs and the pause
    computed for the bytes sent is not negative, the time stored when
    [SendRL] returns is at or after the one stored before. *)
Theorem SendRL_next_send_time_is_monotone {T : Types} (env : Env T)
        (c : BNCSConn.t) pkt (w : World T) n err c1 w1 :
  BNCSConn.SendRL env c pkt w = Done (n, err, c1) w1 ->
  clock_advances env ->
  BNCSConn.lnxt c - clock_of env (ext w) <= 2 ^ 63 - 1 ->
  (forall c' w',
      BNCSConn.Send env c pkt (SendRL_entry env c w) = Done (n, err, c') w' ->
      clock_of env (ext (SendRL_entry env c w)) <= clock_of env (ext w')) ->
  0 <= BNCSConn.rate_limit_delay env n ->
  BNCSConn.lnxt c <= BNCSConn.lnxt c1.
Proof.
  intros H Hclock Hrange Hsend Hdelay.
  pose proof (SendRL_never_sends_early env c w Hclock Hrange) as Early.
  rewrite SendRL_unfold in H.
  destruct (BNCSConn.Send env c pkt (SendRL_entry env c w))
    as [[[n' err'] c'] w'| |] eqn:E; try discriminate H.
  pose proof (BNCSConn_Send_lnxt env _ _ _ _ _ _ _ E) as Hl.
  destruct (0 <? n') eqn:Pos.
  - unfold clock_of in Hsend.
    destruct (time_Now env (ext w')) as [now x] eqn:N.
    injection H as <- <- <- <-.
    specialize (Hsend c' w' eq_refl). rewrite N in Hsend. cbn [fst] in Hsend.
    cbn [BNCSConn.lnxt BNCSConn.set_lnxt]. unfold Time_Add.
    unfold clock_of in Early. lia.
  - injection H as <- <- <- <-. lia.
Qed.

Lemma SendRL_next_send_time_is_monotone_witness :
  exists c1 w1,
    BNCSConn.SendRL Sim.env (Sim.chat (Some 1%nat) 1300) (Some 8%nat) (Sim.world 500 [])
    = Done (10, nil, c1) w1
    /\ 1300 <= BNCSConn.lnxt c1.
Proof.
  do 2 eexists. split; [lazy; reflexivity|].
  eapply (SendRL_next_send_time_is_monotone Sim.env (Sim.chat (Some 1%nat) 1300)
            (Some 8%nat) (Sim.world 500 []) 10 nil).
  - lazy. reflexivity.
  - exact Sim_clock_advances.
  - vm_compute. discriminate.
  - intros c' w' H. vm_compute in H. injection H as _ <-. vm_compute. discriminate.
  - vm_compute. discriminate.
Defined.

(** X22.  On a handle with no transport [SendRL] still waits until the
    stored time of the next send, then returns zero bytes and [io.EOF];
    the handle, the stored time included, is as it was. *)
Theorem SendRL_without_transport {T : Types} (env : Env T)
        (c : BNCSConn.t) pkt (w : World T) :
  BNCSConn.conn c = None ->
  BNCSConn.SendRL env c pkt w = Done (0, Sentinel io_EOF, c) (SendRL_entry env c w).
Proof.
  intros H. rewrite SendRL_unfold. unfold BNCSConn.Send. rewrite H. reflexivity.
Qed.

Lemma SendRL_without_transport_witness :
  exists w',
    BNCSConn.SendRL Sim.env (Sim.chat None 1300) (Some 8%nat) (Sim.world 500 [])
    = Done (0, Sentinel io_EOF, Sim.chat None 1300) w'
    /\ Sim.clock (ext w') = 1300.
Proof.
  eexists. split.
  - apply (SendRL_without_transport Sim.env). reflexivity.
  - reflexivity.
Defined.

(** X23.  The CAPI [Send] closes every writer it obtains: when [NextWriter]
    fails its error is returned and nothing is serialized; when it succeeds
    the packet is serialized into the writer, the writer is closed also if
    serializing failed, and the serializer's error is returned. *)
Theorem CAPIConn_Send_closes_its_writer {T : Types} (env : Env T)
        (c : CAPIConn.t) k pkt w wr e1 x1 :
  CAPIConn.conn c = Some k ->
  WSConn_NextWriter env k websocket_TextMessage (ext w) = ((wr, e1), x1) ->
  (e1 <> nil ->
   CAPIConn.Send env c pkt w = Done (e1, c) {| ext := x1; fired := fired w |})
  /\ (e1 = nil ->
      forall e2 x2,
        capi_SerializePacket env wr pkt x1 = (e2, x2) ->
        CAPIConn.Send env c pkt w
        = Done (e2, c) {| ext := WSWriter_Close env wr x2; fired := fired w |}).
Proof.
  intros Hc HW. unfold CAPIConn.Send. rewrite Hc.
  unfold bind, call, call_, ret. rewrite HW. split.
  - intros He. rewrite (not_nil_is_nil _ He). reflexivity.
  - intros -> e2 x2 HS. cbn [is_nil ext fired]. rewrite HS. reflexivity.
Qed.

Lemma CAPIConn_Send_closes_its_writer_witness :
  exists w',
    CAPIConn.Send Sim.env (Sim.ws (Some 1%nat)) (Some 5%nat) (Sim.world 0 [])
    = Done (nil, Sim.ws (Some 1%nat)) w'
    /\ Sim.outbox (ext w') = [[Byte.x7b; Byte.x05; Byte.x7d]].
Proof.
  eexists. split.
  - apply (proj2 (CAPIConn_Send_closes_its_writer Sim.env (Sim.ws (Some 1%nat))
                    1%nat (Some 5%nat) (Sim.world 0 []) 1%nat nil
                    (ext (Sim.world 0 [])) eq_refl eq_refl) eq_refl).
    reflexivity.
  - reflexivity.
Defined.

(** X24.  The CAPI [NextPacket] decodes one packet per message and then
    discards what is left of the message, also when decoding failed, so
    that the next receive starts at the next message; what the decoder
    returns, packet and error, is returned as it is.  When no message can
    be obtained the error is returned without decoding. *)
Theorem CAPIConn_NextPacket_drains_the_message {T : Types} (env : Env T)
        (c : CAPIConn.t) k w r e1 x1 :
  CAPIConn.conn c = Some k ->
  WSConn_NextReader env k (ext w) = ((r, e1), x1) ->
  (e1 <> nil ->
   CAPIConn.NextPacket env c 0 w
   = Done (None, e1, c) {| ext := x1; fired := fired w |})
  /\ (e1 = nil ->
      forall pkt e2 x2,
        capi_DeserializePacket env r x1 = ((pkt, e2), x2) ->
        CAPIConn.NextPacket env c 0 w
        = Done (pkt, e2, c) {| ext := io_Copy_Discard env r x2; fired := fired w |}).
Proof.
  intros Hc HR. unfold CAPIConn.NextPacket. rewrite Hc. cbn [Z.eqb].
  unfold bind, call, call_, ret. cbn [is_nil negb ext fired]. rewrite HR. split.
  - intros He. rewrite (not_nil_is_nil _ He). reflexivity.
  - intros -> pkt e2 x2 HD. cbn [is_nil ext fired]. rewrite HD. reflexivity.
Qed.

Lemma CAPIConn_NextPacket_drains_the_message_witness :
  exists e w',
    CAPIConn.NextPacket Sim.env (Sim.ws (Some 1%nat)) 0
      (Sim.world 0 [Sim.Chunk [Byte.x01]; Sim.Chunk [Byte.x7b; Byte.x05; Byte.x7d]])
    = Done (None, e, Sim.ws (Some 1%nat)) w'
    /\ capi_recoverable e = true
    /\ Sim.inbox (ext w') = [Sim.Chunk [Byte.x7b; Byte.x05; Byte.x7d]].
Proof.
  do 2 eexists. split.
  - apply (proj2 (CAPIConn_NextPacket_drains_the_message Sim.env
                    (Sim.ws (Some 1%nat)) 1%nat
                    (Sim.world 0 [Sim.Chunk [Byte.x01];
                                  Sim.Chunk [Byte.x7b; Byte.x05; Byte.x7d]])
                    [Byte.x01] nil
                    (Sim.Build_state 0 [Sim.Chunk [Byte.x7b; Byte.x05; Byte.x7d]] [] [])
                    eq_refl eq_refl) eq_refl).
    reflexivity.
  - split; reflexivity.
Defined.
